(** * movedoro release scripts: extraction of the latest changelog entry
      and its rendering as an HTML page.

    Shallow embedding of [scripts/generate_latest_changes.py] and
    [scripts/generate_html_for_sparkle_release.py].

    Python [str] values are sequences of Unicode code points; they are
    modelled as lists of code points ([N]).  The working directory is a
    finite map from file names to the text the files hold.  Text files are
    opened in text mode: on reading, the line endings CR LF and CR are
    turned into LF; on writing (POSIX) the text is stored unchanged.  The
    byte encoding of the files is not modelled.  The renderer calls
    [markdown.markdown] of the Python-Markdown package: it is a parameter
    of the renderer here, and the rules that section 4.2 of the
    specification gives for it are a separate model, [MarkdownSpec]. *)

From Stdlib Require Import NArith Ascii String.
From stdpp Require Import gmap strings list fin_maps.

Local Open Scope N_scope.

(** ** Python strings *)

Abbreviation str := (list N).

(** A literal of the source, as a sequence of code points. *)
Fixpoint py (s : string) : str :=
  match s with
  | EmptyString => []
  | String a r => N_of_ascii a :: py r
  end.

Definition LF : N := 10.
Definition CR : N := 13.

Module Py.

(** [str.isspace] on one code point: the characters removed by
    [str.strip()] called without argument. *)
Definition isspace (c : N) : bool :=
  ((9 <=? c) && (c <=? 13)) || ((28 <=? c) && (c <=? 32))
  || (c =? 133) || (c =? 160) || (c =? 5760)
  || ((8192 <=? c) && (c <=? 8202))
  || (c =? 8232) || (c =? 8233) || (c =? 8239) || (c =? 8287)
  || (c =? 12288).

(** [s.lstrip()] *)
Fixpoint lstrip (s : str) : str :=
  match s with
  | [] => []
  | c :: r => if isspace c then lstrip r else s
  end.

(** [s.rstrip()] *)
Fixpoint rstrip (s : str) : str :=
  match s with
  | [] => []
  | c :: r =>
      match rstrip r with
      | [] => if isspace c then [] else [c]
      | r' => c :: r'
      end
  end.

(** [s.strip()] *)
Definition strip (s : str) : str := rstrip (lstrip s).

(** [s.startswith(p)] *)
Fixpoint startswith (p s : str) : bool :=
  match p, s with
  | [], _ => true
  | _ :: _, [] => false
  | a :: p', b :: s' => (a =? b) && startswith p' s'
  end.

(** [s.find(sep)]: index of the first occurrence, [None] for Python's -1. *)
Fixpoint find (sep s : str) : option nat :=
  if startswith sep s then Some 0%nat
  else match s with
       | [] => None
       | _ :: s' => S <$> find sep s'
       end.

(** [sep in s] *)
Definition contains (sep s : str) : bool :=
  match find sep s with Some _ => true | None => false end.

(** [s.split(sep, 1)]: at most one split, at the first occurrence. *)
Definition split1 (sep s : str) : list str :=
  match find sep s with
  | Some i => [take i s; drop (i + length sep)%nat s]
  | None => [s]
  end.

(** Text-mode reading with universal newlines. *)
Fixpoint universal_newlines (s : str) : str :=
  match s with
  | [] => []
  | c :: r =>
      if c =? CR then
        match r with
        | d :: r' => if d =? LF then LF :: universal_newlines r'
                     else LF :: universal_newlines r
        | [] => [LF]
        end
      else c :: universal_newlines r
  end.

(** [f.readlines()] on the text of the file: the lines in order, each
    with its line feed (the last one has none when the text does not end
    with one). *)
Fixpoint readlines (s : str) : list str :=
  match s with
  | [] => []
  | c :: r =>
      if c =? LF then [c] :: readlines r
      else match readlines r with
           | [] => [[c]]
           | l :: ls => (c :: l) :: ls
           end
  end.

End Py.

Import Py.

(** ** The process model *)

(** How a run of a script ends. *)
Inductive exn := FileNotFoundError.

Inductive termination :=
  | Returned
  | SystemExit (code : N)
  | Uncaught (e : exn).

(** Exit status of the interpreter. *)
Definition exit_status (t : termination) : N :=
  match t with
  | Returned => 0
  | SystemExit code => code
  | Uncaught _ => 1
  end.

(** State of the working directory, what was printed, and how the run
    ended. *)
Record outcome := Outcome {
  files : gmap string str;
  stdout : list str;
  ending : termination
}.

(** [open(name, 'r')] followed by [read()]. *)
Definition read_text (fs : gmap string str) (name : string) : option str :=
  universal_newlines <$> fs !! name.

(** [open(name, 'w')] followed by one [write(text)]. *)
Definition write_text (fs : gmap string str) (name : string) (text : str)
  : gmap string str :=
  <[name := text]> fs.

(** ** scripts/generate_latest_changes.py *)

Module Extractor.

Definition is_bullet (line : str) : bool :=
  startswith (py "* ") line || startswith (py "- ") line.

Definition is_heading (line : str) : bool :=
  startswith (py "# ") line.

(** Lines 29-34: the version and the title of the first header. *)
Definition parse_header (first_header : str) : str * str :=
  let header_content := drop 2 first_header in
  if contains (py " - ") header_content then
    match split1 (py " - ") header_content with
    | [new_version; title] => (new_version, title)
    | _ => ([], [])  (* not reached: the separator occurs *)
    end
  else
    (header_content, py "Version " ++ header_content).

(** Lines 46-50: the version of a later header. *)
Definition parse_old_version (line : str) : str :=
  let header_content := drop 2 line in
  if contains (py " - ") header_content then
    match split1 (py " - ") header_content with
    | v :: _ => v
    | [] => []
    end
  else header_content.

(** Lines 40-51: the loop over [lines[1:]], with the two variables it
    updates; the [break] ends the recursion. *)
Fixpoint scan (lines : list str) (latest_changes old_version : str)
  : str * str :=
  match lines with
  | [] => (latest_changes, old_version)
  | line :: rest =>
      let line := strip line in
      if is_bullet line then
        scan rest (latest_changes ++ line ++ [LF]) old_version
      else if is_heading line then
        (latest_changes, parse_old_version line)
      else
        scan rest latest_changes old_version
  end.

Definition msg_empty : str := py "Release_Notes.md is empty".
Definition msg_header : str :=
  py "First line must be a header starting with '# '".

Definition main (fs : gmap string str) : outcome :=
  match read_text fs "Release_Notes.md" with
  | None => Outcome fs [] (Uncaught FileNotFoundError)
  | Some text =>
      match readlines text with
      | [] => Outcome fs [msg_empty] (SystemExit 1)
      | line0 :: rest =>
          let first_header := strip line0 in
          if negb (startswith (py "# ") first_header) then
            Outcome fs [msg_header] (SystemExit 1)
          else
            let '(new_version, title) := parse_header first_header in
            let '(latest_changes, old_version) := scan rest [] [] in
            let fs := write_text fs "new_version" (strip new_version) in
            let fs := write_text fs "old_version" (strip old_version) in
            let fs := write_text fs "title" (strip title) in
            let fs := write_text fs "latest_changes" (strip latest_changes) in
            Outcome fs
              [py "New version: " ++ new_version;
               py "Old version: " ++ old_version;
               py "Title: " ++ title;
               py "Changes:" ++ [LF] ++ latest_changes]
              Returned
      end
  end.

End Extractor.

(** ** scripts/generate_html_for_sparkle_release.py *)

Definition DQ : N := 34.

(** The given lines, each followed by a line feed. *)
Definition unlines (ls : list str) : str :=
  concat (map (fun l => l ++ [LF]) ls).

Module Renderer.

(** The text of the page before the title. *)
Definition page_head : str :=
  unlines
    [py "<!DOCTYPE html>";
     py "<html>";
     py "<head>";
     py "    <meta charset=" ++ [DQ] ++ py "utf-8" ++ [DQ] ++ py ">"]
  ++ py "    <title>".

(** The rules of the inline style block. *)
Definition style_rules : list str :=
  [py "        body {";
   py "            font-family: -apple-system, BlinkMacSystemFont, "
     ++ [DQ] ++ py "Segoe UI" ++ [DQ]
     ++ py ", Roboto, Helvetica, Arial, sans-serif;";
   py "            padding: 20px;";
   py "            max-width: 600px;";
   py "            margin: 0 auto;";
   py "            color: #333;";
   py "        }";
   py "        h1 {";
   py "            font-size: 1.5em;";
   py "            border-bottom: 1px solid #eee;";
   py "            padding-bottom: 10px;";
   py "        }";
   py "        ul {";
   py "            padding-left: 20px;";
   py "        }";
   py "        li {";
   py "            margin: 8px 0;";
   py "        }"].

(** The text between the title and the converted fragment. *)
Definition page_style : str :=
  unlines
    ([py "</title>"; py "    <style>"]
     ++ style_rules
     ++ [py "    </style>"; py "</head>"; py "<body>"]).

(** The text after the fragment. *)
Definition page_tail : str :=
  [LF] ++ unlines [py "</body>"; py "</html>"].

Section WithMarkdown.

(** [markdown.markdown] of the Python-Markdown package, which the script
    imports: the conversion of a markdown document into an HTML
    fragment. *)
Variable markdown : str -> str.

(** Line 16 *)
Definition md_content (title changes : str) : str :=
  py "# " ++ title ++ [LF; LF] ++ changes.

(** Lines 22-52 *)
Definition full_html (title html : str) : str :=
  page_head ++ title ++ page_style ++ html ++ page_tail.

Definition main (fs : gmap string str) : outcome :=
  match read_text fs "title" with
  | None => Outcome fs [] (Uncaught FileNotFoundError)
  | Some t =>
      let title := strip t in
      match read_text fs "latest_changes" with
      | None => Outcome fs [] (Uncaught FileNotFoundError)
      | Some c =>
          let changes := strip c in
          let html := markdown (md_content title changes) in
          Outcome
            (write_text fs "latest_changes.html" (full_html title html))
            [py "Generated HTML for: " ++ title]
            Returned
      end
  end.

End WithMarkdown.

End Renderer.

(** ** The two stages in sequence *)

(** Modelled from the spec: the driver that runs the two scripts is not
    part of the sources; section 2 has the extractor run first, and the
    renderer run only after the extractor has succeeded. *)
Definition pipeline (markdown : str -> str) (fs : gmap string str)
  : outcome :=
  let r := Extractor.main fs in
  match ending r with
  | Returned =>
      let r' := Renderer.main markdown (files r) in
      Outcome (files r') (stdout r ++ stdout r') (ending r')
  | _ => r
  end.

(** ** Notions of the specification *)

(** The two checked failures, told apart by the diagnostic printed before
    [exit(1)]. *)
Definition EmptyInputError (r : outcome) : Prop :=
  stdout r = [Extractor.msg_empty] /\ ending r = SystemExit 1.

Definition MalformedHeaderError (r : outcome) : Prop :=
  stdout r = [Extractor.msg_header] /\ ending r = SystemExit 1.

(** The lines of the changelog as the extractor sees them. *)
Definition document_lines (raw : str) : list str :=
  readlines (universal_newlines raw).

(** A line as [readlines] returns it: a line feed at the end at most. *)
Definition line_shaped (l : str) : Prop :=
  exists body, (LF ∉ body) /\ (l = body \/ l = body ++ [LF]).

(** A text with no whitespace at either end. *)
Definition no_outer_space (s : str) : Prop :=
  (forall c r, s = c :: r -> isspace c = false) /\
  (forall r c, s = r ++ [c] -> isspace c = false).

(** The lines of a text: the pieces between its line feeds. *)
Fixpoint split_lf (s : str) : list str :=
  match s with
  | [] => [[]]
  | c :: r =>
      if c =? LF then [] :: split_lf r
      else match split_lf r with
           | [] => [[c]]
           | l :: ls => (c :: l) :: ls
           end
  end.

(** The given lines, one per line: a line feed between two of them. *)
Fixpoint join_lf (ls : list str) : str :=
  match ls with
  | [] => []
  | [l] => l
  | l :: ls' => l ++ LF :: join_lf ls'
  end.

Module Spec.

Import Extractor.

(** The lines before the first heading line. *)
Fixpoint before_heading (ls : list str) : list str :=
  match ls with
  | [] => []
  | l :: r => if is_heading l then [] else l :: before_heading r
  end.

(** The bullet lines of the newest entry: among the trimmed lines after
    the first one, and before the next heading line, those that start with
    a bullet marker, in order. *)
Definition bullet_lines (lines : list str) : list str :=
  List.filter is_bullet (before_heading (map strip (tail lines))).

(** The changes block: the bullet lines, one per line. *)
Definition changes (lines : list str) : str :=
  join_lf (bullet_lines lines).

(** The heading lines of a document, trimmed. *)
Definition headings (lines : list str) : list str :=
  List.filter is_heading (map strip lines).

(** The text before the first occurrence of [sep], or the whole text
    when [sep] does not occur. *)
Fixpoint before_sep (sep s : str) : str :=
  if startswith sep s then []
  else match s with
       | [] => []
       | c :: r => c :: before_sep sep r
       end.

(** The version token of a (trimmed) heading line. *)
Definition version_token (heading : str) : str :=
  before_sep (py " - ") (drop 2 heading).

(** The old version the loop finds: the version of the first heading line
    among the lines it is given, or the initial value. *)
Definition next_old_version (rest : list str) (old_version : str) : str :=
  match List.filter is_heading (map strip rest) with
  | h :: _ => parse_old_version h
  | [] => old_version
  end.

(** [sep] occurs in [s] at index [i]. *)
Definition occurs_at (sep s : str) (i : nat) : Prop :=
  startswith sep (drop i s) = true.

End Spec.

(** ** The markdown conversion as the specification describes it *)

Module MarkdownSpec.

Import Extractor.

(** Modelled from the spec: the block elements of the fragment that
    [markdown.markdown] produces. The package is imported by the renderer
    and is not part of the sources; section 4.2 step 2 gives its rules: a
    leading heading line becomes an h1 element, a contiguous run of bullet
    lines becomes a ul element with one li per bullet, blank lines separate
    blocks. *)
Inductive block :=
  | H1 (text : str)
  | UL (items : list str)
  | P (lines : list str).

(** Modelled from the spec: the run of lines being collected (section 4.2
    step 2, contiguous runs). *)
Inductive run :=
  | NoRun
  | Bullets (items : list str)
  | Para (lines : list str).

Definition close (r : run) : list block :=
  match r with
  | NoRun => []
  | Bullets items => [UL items]
  | Para ls => [P ls]
  end.

Definition blank (l : str) : bool :=
  match strip l with [] => true | _ => false end.

(** Modelled from the spec: grouping of the lines into blocks (section 4.2
    step 2): blank lines separate blocks, a contiguous run of bullet lines
    is one list, other lines are paragraph text. *)
Fixpoint group (ls : list str) (cur : run) : list block :=
  match ls with
  | [] => close cur
  | l :: r =>
      if blank l then close cur ++ group r NoRun
      else if is_bullet l then
        match cur with
        | Bullets items => group r (Bullets (items ++ [drop 2 l]))
        | _ => close cur ++ group r (Bullets [drop 2 l])
        end
      else
        match cur with
        | Para ps => group r (Para (ps ++ [l]))
        | _ => close cur ++ group r (Para [l])
        end
  end.

(** Modelled from the spec: the blocks of a markdown document (section 4.2
    step 2): a leading heading line becomes the h1 element. *)
Definition blocks (md : str) : list block :=
  match split_lf md with
  | l :: r =>
      if is_heading l then H1 (drop 2 l) :: group r NoRun
      else group (l :: r) NoRun
  | [] => []
  end.

Section Html.

(** The rendering of inline markup, left open. *)
Variable inline : str -> str.

(** Modelled from the spec: the HTML text of a block (section 4.2 step 2
    and the scenario of section 8). *)
Definition html_of_block (b : block) : str :=
  match b with
  | H1 t => py "<h1>" ++ inline t ++ py "</h1>"
  | UL items =>
      py "<ul>" ++ [LF]
      ++ unlines (map (fun i => py "<li>" ++ inline i ++ py "</li>") items)
      ++ py "</ul>"
  | P ls => py "<p>" ++ inline (join_lf ls) ++ py "</p>"
  end.

(** Modelled from the spec: [markdown.markdown], the conversion of a
    markdown document to an HTML fragment (section 4.2 step 2). *)
Definition markdown (md : str) : str :=
  join_lf (map html_of_block (blocks md)).

End Html.

End MarkdownSpec.

(** What a run shows of the version and title parsed from the first
    heading: the two variables as printed, and their trimmed values as
    written. *)
Definition parsed_as (r : outcome) (version title : str) : Prop :=
  stdout r !! 0%nat = Some (py "New version: " ++ version) /\
  stdout r !! 2%nat = Some (py "Title: " ++ title) /\
  files r !! "new_version" = Some (strip version) /\
  files r !! "title" = Some (strip title).

(** ** Sample working directories *)

Module Sample.

(** The changelog of the scenario of section 8. *)
Definition notes : str :=
  unlines
    [py "# 1.1.0 - New Feature";
     py "* First change";
     py "* Second change";
     [];
     py "# 1.0.0 - Initial Release";
     py "* Initial features"].

Definition dir (raw : str) : gmap string str :=
  {[ "Release_Notes.md" := raw ]}.

(** A second heading with two spaces before the separator. *)
Definition notes_spaced : str :=
  unlines [py "# 2.0"; py "# 1.0  - Initial"].

(** A first line that is indented. *)
Definition notes_indented : str := unlines [py " # 1.0"].

(** A first line made of the heading marker alone. *)
Definition notes_bare_marker : str := unlines [py "# "].

(** A heading without title and without bullet lines. *)
Definition notes_plain : str := unlines [py "# 2.0.0"].

(** Blank lines only. *)
Definition notes_blank : str := unlines [py "  "; []].

End Sample.

(** ** Notions for further properties of the two scripts *)

(** The files the extractor writes. *)
Definition output_names : list string :=
  ["new_version"; "old_version"; "title"; "latest_changes"].

(** The trimmed lines that are not blank. *)
Definition trimmed_nonblank (lines : list str) : list str :=
  List.filter (fun l => match l with [] => false | _ => true end)
    (map strip lines).

Module Variant.

(** The changelog of [Sample.notes], with indented bullet lines, spaces at
    the end of lines and more blank lines. *)
Definition notes_untidy : str :=
  unlines
    [py "# 1.1.0 - New Feature  ";
     [];
     py "  * First change";
     py "* Second change   ";
     py "   ";
     [];
     py "# 1.0.0 - Initial Release";
     py "* Initial features"].

(** The changelog of [Sample.notes], cut after its second heading. *)
Definition notes_cut : str :=
  unlines
    [py "# 1.1.0 - New Feature";
     py "* First change";
     py "* Second change";
     [];
     py "# 1.0.0 - Initial Release"].

(** A directory that holds the two files the renderer reads. *)
Definition rendered_inputs (title changes : str) : gmap string str :=
  <["latest_changes" := changes]> {[ "title" := title ]}.

End Variant.

(** ** Elements of a page *)

Module Html.

(** The number of places of a text where a given text, such as the opening
    tag of an element, occurs. *)
Fixpoint count_sub (p s : str) : nat :=
  match s with
  | [] => 0%nat
  | _ :: r => ((if startswith p s then 1 else 0) + count_sub p r)%nat
  end.

(** No end of [a] shorter than [p] is a beginning of [p]: no occurrence of
    [p] starts in [a] and goes on after it. *)
Fixpoint safe_end (p a : str) : bool :=
  match a with
  | [] => true
  | _ :: a' =>
      ((length p <=? length a)%nat || negb (startswith a p)) && safe_end p a'
  end.

(** The characters with a meaning in markdown or in HTML. *)
Definition markup_char (c : N) : bool :=
  existsb (N.eqb c) (py "<>&\`*_[]!#").

(** A character of plain text: printable, not markup, and no whitespace
    but the space. *)
Definition plain_char (c : N) : bool :=
  (32 <=? c) && negb (c =? 127) && negb (markup_char c)
  && (negb (isspace c) || (c =? 32)).

(** Plain text: not empty, made of plain characters, and not starting like
    a markdown block (a space, a list marker or a digit). *)
Definition plain (t : str) : bool :=
  match t with
  | [] => false
  | c :: _ =>
      negb (existsb (N.eqb c) (py " +-0123456789")) && forallb plain_char t
  end.

(** The text of a fragment made of a heading and, when there are items,
    of one list. *)
Definition fragment_of (title : str) (items : list str) : str :=
  py "<h1>" ++ title ++ py "</h1>"
  ++ match items with
     | [] => []
     | _ =>
         LF :: py "<ul>" ++ [LF]
         ++ unlines (map (fun i => py "<li>" ++ i ++ py "</li>") items)
         ++ py "</ul>"
     end.

End Html.

Module Sample2.

(** A changelog whose title holds HTML tags. *)
Definition notes_tags : str :=
  unlines [py "# 1.0 - a</h1><h1>b"; py "* x"].

End Sample2.

(** * Properties *)

(** ** Trimming *)

Section Strip.

Lemma rstrip_cons c s :
  rstrip (c :: s) =
    match rstrip s with
    | [] => if isspace c then [] else [c]
    | r' => c :: r'
    end.
Proof. reflexivity. Qed.

Lemma rstrip_snoc_space s c : isspace c = true -> rstrip (s ++ [c]) = rstrip s.
Proof.
  intros Hc. induction s as [|d s IH]; simpl.
  - now rewrite Hc.
  - now rewrite IH.
Qed.

Lemma rstrip_snoc_keep s c :
  isspace c = false -> rstrip (s ++ [c]) = s ++ [c].
Proof.
  intros Hc. induction s as [|d s IH]; simpl.
  - now rewrite Hc.
  - rewrite IH. now destruct s.
Qed.

Lemma rstrip_app_keep a b : rstrip b <> [] -> rstrip (a ++ b) = a ++ rstrip b.
Proof.
  intros Hb. induction a as [|d a IH]; simpl; [done|].
  rewrite IH. destruct (a ++ rstrip b) eqn:E; [|done].
  apply app_eq_nil in E as [_ E]. done.
Qed.

(** What [rstrip] removes is whitespace at the end. *)
Lemma rstrip_split s :
  exists t, s = rstrip s ++ t /\ Forall (fun c => isspace c = true) t.
Proof.
  induction s as [|c s (t & Hs & Ht)]; [by exists []|].
  simpl. destruct (rstrip s) as [|d r] eqn:E.
  - destruct (isspace c) eqn:Hc.
    + exists (c :: s). split; [done|]. simpl in Hs. subst t. by constructor.
    + exists t. simpl in *. by subst t.
  - exists t. split; [|done]. simpl. f_equal. exact Hs.
Qed.

Lemma rstrip_last s r c : rstrip s = r ++ [c] -> isspace c = false.
Proof.
  revert r. induction s as [|d s IH]; intros r; simpl.
  - by destruct r.
  - destruct (rstrip s) as [|e r'] eqn:E.
    + destruct (isspace d) eqn:Hd; [by destruct r|].
      intros H. destruct r as [|x [|y r]]; simplify_eq/=. done.
    + intros H. destruct r as [|x r]; [simplify_eq/=|].
      simpl in H. injection H as _ H. by eapply IH.
Qed.

Lemma rstrip_head c s : isspace c = false -> exists r, rstrip (c :: s) = c :: r.
Proof.
  intros Hc. simpl. destruct (rstrip s); rewrite ?Hc; eauto.
Qed.

Lemma lstrip_split s :
  exists t, s = t ++ lstrip s /\ Forall (fun c => isspace c = true) t.
Proof.
  induction s as [|c s (t & Hs & Ht)]; [by exists []|].
  simpl. destruct (isspace c) eqn:Hc.
  - exists (c :: t). split; [simpl; by rewrite <- Hs | by constructor].
  - by exists [].
Qed.

Lemma lstrip_head s c r : lstrip s = c :: r -> isspace c = false.
Proof.
  induction s as [|d s IH]; simpl; [done|].
  destruct (isspace d) eqn:Hd; [done|]. by intros [= -> _].
Qed.

Lemma lstrip_keep c s : isspace c = false -> lstrip (c :: s) = c :: s.
Proof. intros Hc. simpl. by rewrite Hc. Qed.

Lemma lstrip_snoc_space s c :
  isspace c = true -> rstrip (lstrip (s ++ [c])) = rstrip (lstrip s).
Proof.
  intros Hc. induction s as [|d s IH]; simpl.
  - by rewrite Hc.
  - destruct (isspace d); [done|].
    change (d :: s ++ [c]) with ((d :: s) ++ [c]). by apply rstrip_snoc_space.
Qed.

(** A trailing whitespace character does not change the trimmed text. *)
Lemma strip_snoc_space s c : isspace c = true -> strip (s ++ [c]) = strip s.
Proof. apply lstrip_snoc_space. Qed.

Lemma strip_head s c r : strip s = c :: r -> isspace c = false.
Proof.
  unfold strip. destruct (lstrip s) as [|d l] eqn:E; [done|].
  apply lstrip_head in E. destruct (rstrip_head d l E) as [r' ->].
  by intros [= <- _].
Qed.

Lemma strip_last s r c : strip s = r ++ [c] -> isspace c = false.
Proof. apply rstrip_last. Qed.

Lemma strip_no_outer_space s : no_outer_space (strip s).
Proof.
  split; intros; [by eapply strip_head | by eapply strip_last].
Qed.

(** The trimmed text is a segment of the text. *)
Lemma strip_segment s :
  exists a b, s = a ++ strip s ++ b.
Proof.
  destruct (lstrip_split s) as (a & Ha & _).
  destruct (rstrip_split (lstrip s)) as (b & Hb & _).
  exists a, b. unfold strip. by rewrite <- Hb.
Qed.

Lemma strip_elem s x : x ∈ strip s -> x ∈ s.
Proof.
  destruct (strip_segment s) as (a & b & E). intros H. rewrite E.
  set_solver.
Qed.

(** A text with no whitespace at either end is left as it is. *)
Lemma strip_fixed s : no_outer_space s -> strip s = s.
Proof.
  intros [Hh Hl]. destruct s as [|c s]; [done|].
  unfold strip. rewrite lstrip_keep by eauto.
  destruct (exists_last (l:=c :: s)) as (r & d & E); [done|].
  rewrite E. apply rstrip_snoc_keep. eauto.
Qed.

Lemma strip_idemp s : strip (strip s) = strip s.
Proof. apply strip_fixed, strip_no_outer_space. Qed.

End Strip.

(** ** Prefixes, occurrences and splitting *)

Section Find.

Lemma startswith_spec p s : startswith p s = true <-> exists t, s = p ++ t.
Proof.
  revert s. induction p as [|a p IH]; intros s; simpl.
  - split; eauto.
  - destruct s as [|b s].
    + split; [done | by intros [t ?]].
    + rewrite andb_true_iff, N.eqb_eq, IH. split.
      * intros [-> [t ->]]. eauto.
      * intros [t [= -> ->]]. eauto.
Qed.

Lemma startswith_app p t : startswith p (p ++ t) = true.
Proof. apply startswith_spec. eauto. Qed.

Lemma find_Some sep s i :
  find sep s = Some i ->
  Spec.occurs_at sep s i /\
  (forall j, (j < i)%nat -> ~ Spec.occurs_at sep s j) /\
  s = take i s ++ sep ++ drop (i + length sep) s.
Proof.
  unfold Spec.occurs_at.
  revert i. induction s as [|c s IH]; intros i; simpl.
  - destruct (startswith sep []) eqn:E; [|done]. intros [= <-].
    split; [done|]. split; [lia|].
    apply startswith_spec in E as [t E]. symmetry in E.
    apply app_eq_nil in E as [-> ->]. done.
  - destruct (startswith sep (c :: s)) eqn:E.
    + intros [= <-]. split; [done|]. split; [lia|].
      apply startswith_spec in E as [t E]. rewrite E. simpl.
      by rewrite drop_app_length.
    + destruct (find sep s) as [k|] eqn:F; [|done]. simpl. intros [= <-].
      destruct (IH k eq_refl) as (H1 & H2 & H3). split; [done|]. split.
      * intros [|j] Hj; simpl; [by rewrite E|]. apply H2. lia.
      * simpl. by rewrite <- H3.
Qed.

Lemma find_None sep s i : find sep s = None -> ~ Spec.occurs_at sep s i.
Proof.
  unfold Spec.occurs_at.
  revert i. induction s as [|c s IH]; intros i; simpl.
  - destruct (startswith sep []) eqn:E; [done|]. intros _.
    rewrite drop_nil. by rewrite E.
  - destruct (startswith sep (c :: s)) eqn:E; [done|].
    destruct (find sep s) eqn:F; [done|]. intros _.
    destruct i as [|i]; simpl; [by rewrite E | by apply IH].
Qed.

(** The first occurrence is the one [find] returns. *)
Lemma find_first sep s i :
  Spec.occurs_at sep s i ->
  (forall j, (j < i)%nat -> ~ Spec.occurs_at sep s j) ->
  find sep s = Some i.
Proof.
  intros Hi Hlt. destruct (find sep s) as [k|] eqn:F.
  - destruct (find_Some _ _ _ F) as (Hk & Hk' & _).
    destruct (lt_eq_lt_dec i k) as [[?| ->]|?]; [|done|].
    + by destruct (Hk' i).
    + by destruct (Hlt k).
  - by destruct (find_None _ _ i F).
Qed.

Lemma before_sep_find sep s :
  Spec.before_sep sep s =
    match find sep s with Some i => take i s | None => s end.
Proof.
  induction s as [|c s IH]; simpl.
  - by destruct (startswith sep []).
  - destruct (startswith sep (c :: s)); [done|].
    rewrite IH. by destruct (find sep s).
Qed.

(** Splitting at a known first occurrence. *)
Lemma split1_first sep v t :
  (forall j, (j < length v)%nat -> ~ Spec.occurs_at sep (v ++ sep ++ t) j) ->
  find sep (v ++ sep ++ t) = Some (length v) /\
  split1 sep (v ++ sep ++ t) = [v; t].
Proof.
  intros Hlt.
  assert (find sep (v ++ sep ++ t) = Some (length v)) as F.
  { apply find_first; [|done]. unfold Spec.occurs_at.
    rewrite drop_app_length. apply startswith_app. }
  split; [done|]. unfold split1. rewrite F.
  rewrite take_app_length. rewrite <- drop_drop, drop_app_length.
  by rewrite drop_app_length.
Qed.

End Find.

(** ** Lines *)

Section Lines.

Lemma isspace_LF : isspace LF = true.
Proof. reflexivity. Qed.

Lemma universal_newlines_nil s : universal_newlines s = [] <-> s = [].
Proof.
  split; [|by intros ->]. destruct s as [|c s]; [done|]. simpl.
  destruct (c =? CR); [|done]. destruct s as [|d s]; [done|].
  by destruct (d =? LF).
Qed.

Lemma readlines_nil s : readlines s = [] <-> s = [].
Proof.
  split; [|by intros ->]. destruct s as [|c s]; [done|]. simpl.
  destruct (c =? LF); [done|]. by destruct (readlines s).
Qed.

Lemma document_lines_nil raw : document_lines raw = [] <-> raw = [].
Proof.
  unfold document_lines. by rewrite readlines_nil, universal_newlines_nil.
Qed.

Lemma readlines_shaped s : Forall line_shaped (readlines s).
Proof.
  induction s as [|c s IH]; simpl; [constructor|].
  destruct (N.eqb_spec c LF) as [->|Hc].
  - constructor; [|done]. exists []. split; [apply not_elem_of_nil | by right].
  - destruct (readlines s) as [|l ls].
    + repeat constructor. exists [c].
      split; [|by left].
      intros E%list_elem_of_singleton. congruence.
    + inversion IH as [|? ? (body & Hb & Hl) Hls]; subst.
      constructor; [|done]. exists (c :: body).
      split; [rewrite not_elem_of_cons; by split|].
      destruct Hl as [-> | ->]; [by left | by right].
Qed.

(** A trimmed line holds no line feed. *)
Lemma strip_line_no_LF l : line_shaped l -> LF ∉ strip l.
Proof.
  intros (body & Hb & [-> | ->]) H.
  - by apply Hb, strip_elem.
  - rewrite strip_snoc_space in H by apply isspace_LF.
    by apply Hb, strip_elem.
Qed.

Lemma split_lf_no_LF s : LF ∉ s -> split_lf s = [s].
Proof.
  induction s as [|c s IH]; [done|]. intros H. simpl.
  destruct (N.eqb_spec c LF) as [->|Hc]; [set_solver|].
  rewrite IH; [done | set_solver].
Qed.

Lemma split_lf_app a b : LF ∉ a -> split_lf (a ++ LF :: b) = a :: split_lf b.
Proof.
  induction a as [|c a IH]; [done|]. intros H. simpl.
  destruct (N.eqb_spec c LF) as [->|Hc]; [set_solver|].
  rewrite IH; [done | set_solver].
Qed.

(** Splitting undoes joining, for lines without line feed. *)
Lemma split_join_lf ls :
  ls <> [] -> Forall (fun l => LF ∉ l) ls -> split_lf (join_lf ls) = ls.
Proof.
  induction ls as [|l ls IH]; [done|]. intros _ H.
  inversion H as [|? ? Hl Hls]; subst.
  destruct ls as [|l' ls].
  - by apply split_lf_no_LF.
  - change (join_lf (l :: l' :: ls)) with (l ++ LF :: join_lf (l' :: ls)).
    rewrite split_lf_app by done. by rewrite IH.
Qed.

End Lines.

(** ** The extractor *)

Section ExtractorFacts.

Import Extractor.

Lemma is_bullet_head l :
  is_bullet l = true -> exists c r, l = c :: r /\ isspace c = false.
Proof.
  unfold is_bullet. rewrite orb_true_iff, !startswith_spec.
  intros [[t ->] | [t ->]]; simpl; eauto.
Qed.

Lemma bullet_not_heading l : is_bullet l = true -> is_heading l = false.
Proof.
  unfold is_bullet, is_heading. rewrite orb_true_iff, !startswith_spec.
  intros [[t ->] | [t ->]]; reflexivity.
Qed.

(** The loop, as a whole. *)
Lemma scan_spec rest acc old :
  scan rest acc old =
    (acc ++ unlines (List.filter is_bullet (Spec.before_heading (map strip rest))),
     Spec.next_old_version rest old).
Proof.
  unfold Spec.next_old_version.
  revert acc. induction rest as [|l rest IH]; intros acc; simpl.
  - by rewrite app_nil_r.
  - destruct (is_bullet (strip l)) eqn:B.
    + rewrite (bullet_not_heading _ B). simpl. rewrite B, IH.
      unfold unlines. simpl. by rewrite <- !app_assoc.
    + destruct (is_heading (strip l)) eqn:H; simpl.
      * by rewrite app_nil_r.
      * by rewrite B, IH.
Qed.

Lemma unlines_cons l ls : unlines (l :: ls) = l ++ LF :: unlines ls.
Proof. unfold unlines. simpl. by rewrite <- app_assoc. Qed.

Lemma rstrip_unlines bs :
  Forall (fun b => b <> [] /\ no_outer_space b) bs ->
  rstrip (unlines bs) = join_lf bs.
Proof.
  induction bs as [|b bs IH]; [done|]. intros H.
  inversion H as [|? ? [Hne [_ Hl]] Hbs]; subst.
  rewrite unlines_cons.
  assert (rstrip b = b) as Hb.
  { destruct (exists_last Hne) as (r & c & ->).
    apply rstrip_snoc_keep. eauto. }
  destruct bs as [|b' bs].
  - change (b ++ LF :: unlines []) with (b ++ [LF]).
    rewrite rstrip_snoc_space by apply isspace_LF. exact Hb.
  - specialize (IH Hbs).
    assert (join_lf (b' :: bs) <> []) as Hj.
    { inversion Hbs as [|? ? [Hne' _] _]; subst.
      destruct b'; [done|]. by destruct bs. }
    change (join_lf (b :: b' :: bs)) with (b ++ LF :: join_lf (b' :: bs)).
    rewrite <- IH in Hj |- *.
    assert (rstrip (LF :: unlines (b' :: bs))
            = LF :: rstrip (unlines (b' :: bs))) as E.
    { rewrite rstrip_cons. by destruct (rstrip (unlines (b' :: bs))). }
    rewrite rstrip_app_keep; by rewrite E.
Qed.

(** Trimming the accumulated block leaves the bullet lines, one per line. *)
Lemma strip_unlines_bullets bs :
  Forall (fun b => is_bullet b = true /\ no_outer_space b) bs ->
  strip (unlines bs) = join_lf bs.
Proof.
  intros H. unfold strip.
  assert (lstrip (unlines bs) = unlines bs) as ->.
  { destruct bs as [|b bs]; [done|].
    inversion H as [|? ? [Hb _] _]; subst.
    destruct (is_bullet_head _ Hb) as (c & r & -> & Hc).
    rewrite unlines_cons. simpl. by rewrite Hc. }
  apply rstrip_unlines. eapply Forall_impl; [exact H|].
  intros b [Hb Hn]. split; [|done].
  destruct (is_bullet_head _ Hb) as (c & r & -> & _). done.
Qed.

Lemma bullet_lines_Forall lines :
  Forall (fun b => is_bullet b = true /\ no_outer_space b)
    (Spec.bullet_lines lines).
Proof.
  unfold Spec.bullet_lines. apply List.Forall_forall. intros b Hb.
  apply List.filter_In in Hb as [Hb1 Hb2]. split; [done|].
  assert (exists l, b = strip l) as [l ->].
  { clear Hb2. induction (tail lines) as [|l ls IH]; simpl in *; [done|].
    destruct (is_heading (strip l)); [done|].
    destruct Hb1 as [<-|?]; eauto. }
  apply strip_no_outer_space.
Qed.

(** The changes block that is written. *)
Lemma changes_written line0 rest :
  strip (fst (scan rest [] [])) = Spec.changes (line0 :: rest).
Proof.
  rewrite scan_spec. simpl.
  apply (strip_unlines_bullets (Spec.bullet_lines (line0 :: rest))).
  apply bullet_lines_Forall.
Qed.

(** A run that passes both checks. *)
Lemma main_accepted fs raw line0 rest :
  fs !! "Release_Notes.md" = Some raw ->
  document_lines raw = line0 :: rest ->
  is_heading (strip line0) = true ->
  main fs =
    let first_header := strip line0 in
    let new_version := fst (parse_header first_header) in
    let title := snd (parse_header first_header) in
    let latest_changes := fst (scan rest [] []) in
    let old_version := snd (scan rest [] []) in
    Outcome
      (<["latest_changes" := strip latest_changes]>
        (<["title" := strip title]>
          (<["old_version" := strip old_version]>
            (<["new_version" := strip new_version]> fs))))
      [py "New version: " ++ new_version;
       py "Old version: " ++ old_version;
       py "Title: " ++ title;
       py "Changes:" ++ [LF] ++ latest_changes]
      Returned.
Proof.
  intros Hraw Hlines Hh. unfold main, read_text. rewrite Hraw.
  change (universal_newlines <$> Some raw) with (Some (universal_newlines raw)).
  cbv beta iota. fold (document_lines raw). rewrite Hlines.
  unfold is_heading in Hh. rewrite Hh. cbn [negb].
  destruct (parse_header (strip line0)) as [v t].
  by destruct (scan rest [] []) as [c o].
Qed.

(** A run that fails a check, or cannot read the changelog. *)
Lemma main_missing fs :
  fs !! "Release_Notes.md" = None ->
  main fs = Outcome fs [] (Uncaught FileNotFoundError).
Proof. intros H. unfold main, read_text. by rewrite H. Qed.

Lemma main_empty fs :
  fs !! "Release_Notes.md" = Some [] ->
  main fs = Outcome fs [msg_empty] (SystemExit 1).
Proof. intros H. unfold main, read_text. by rewrite H. Qed.

Lemma main_malformed fs raw line0 rest :
  fs !! "Release_Notes.md" = Some raw ->
  document_lines raw = line0 :: rest ->
  is_heading (strip line0) = false ->
  main fs = Outcome fs [msg_header] (SystemExit 1).
Proof.
  intros Hraw Hlines Hh. unfold main, read_text. rewrite Hraw.
  change (universal_newlines <$> Some raw) with (Some (universal_newlines raw)).
  cbv beta iota. fold (document_lines raw). rewrite Hlines.
  unfold is_heading in Hh. by rewrite Hh.
Qed.

End ExtractorFacts.

(** ** Claims on the extractor *)

Section ExtractorClaims.

Import Extractor.

Lemma main_returned_inv fs :
  ending (main fs) = Returned ->
  exists raw line0 rest,
    fs !! "Release_Notes.md" = Some raw /\
    document_lines raw = line0 :: rest /\
    is_heading (strip line0) = true.
Proof.
  destruct (fs !! "Release_Notes.md") as [raw|] eqn:Hraw.
  - destruct (document_lines raw) as [|line0 rest] eqn:Hl.
    + apply document_lines_nil in Hl as ->. by rewrite main_empty.
    + destruct (is_heading (strip line0)) eqn:Hh; [by eauto 6|].
      by erewrite main_malformed.
  - by rewrite main_missing.
Qed.

Lemma parse_old_version_token h :
  parse_old_version h = Spec.version_token h.
Proof.
  unfold parse_old_version, Spec.version_token, contains, split1.
  rewrite before_sep_find. by destruct (find _ _).
Qed.

Lemma bullet_lines_no_LF lines :
  Forall line_shaped lines ->
  Forall (fun b => LF ∉ b) (Spec.bullet_lines lines).
Proof.
  intros Hs. unfold Spec.bullet_lines. apply List.Forall_forall.
  intros b [Hb _]%List.filter_In.
  assert (Forall line_shaped (tail lines)) as Ht.
  { destruct lines; [done|]. by inversion Hs. }
  induction Ht as [|l ls Hl _ IH]; simpl in Hb; [done|].
  destruct (is_heading (strip l)); [done|].
  destruct Hb as [<-|?]; [by apply strip_line_no_LF | by apply IH].
Qed.

(** The changes block, as it is found in the file. *)
Lemma latest_changes_written fs raw line0 rest :
  fs !! "Release_Notes.md" = Some raw ->
  document_lines raw = line0 :: rest ->
  is_heading (strip line0) = true ->
  files (main fs) !! "latest_changes" = Some (Spec.changes (line0 :: rest)).
Proof.
  intros Hraw Hl Hh. rewrite (main_accepted _ _ _ _ Hraw Hl Hh).
  cbn [files]. rewrite <- (changes_written line0 rest). by simplify_map_eq.
Qed.

(** C1: for a document that passes both checks, the changes block written
    to [latest_changes] is made of the trimmed lines after the first line
    that start with a bullet marker, in order, one per line, up to the next
    heading line, the other lines being skipped; and each of the four
    outputs is the trimmed value of its variable, with no whitespace left
    at either end. *)
Theorem changes_output fs raw line0 rest :
  fs !! "Release_Notes.md" = Some raw ->
  document_lines raw = line0 :: rest ->
  is_heading (strip line0) = true ->
  let r := main fs in
  let first_header := strip line0 in
  files r !! "latest_changes" = Some (Spec.changes (line0 :: rest)) /\
  files r !! "latest_changes" = Some (strip (fst (scan rest [] []))) /\
  files r !! "old_version" = Some (strip (snd (scan rest [] []))) /\
  files r !! "title" = Some (strip (snd (parse_header first_header))) /\
  files r !! "new_version" = Some (strip (fst (parse_header first_header))) /\
  forall name,
    name ∈ ["new_version"; "old_version"; "title"; "latest_changes"] ->
    exists text, files r !! name = Some text /\ no_outer_space text.
Proof.
  intros Hraw Hl Hh r fh. subst r fh.
  rewrite (main_accepted _ _ _ _ Hraw Hl Hh). cbn [files].
  rewrite <- (changes_written line0 rest).
  repeat split; try by simplify_map_eq.
  intros name Hn. repeat (apply elem_of_cons in Hn as [->|Hn]);
    [..|by apply elem_of_nil in Hn];
    eexists; (split; [by simplify_map_eq | apply strip_no_outer_space]).
Qed.

Lemma changes_output_witness :
  files (main (Sample.dir Sample.notes)) !! "latest_changes"
  = Some (join_lf [py "* First change"; py "* Second change"]).
Proof.
  refine (eq_trans
    (proj1 (changes_output (Sample.dir Sample.notes) Sample.notes
      (py "# 1.1.0 - New Feature" ++ [LF])
      (tail (document_lines Sample.notes)) _ _ _)) _);
    vm_compute; reflexivity.
Defined.

(** C9: when the extractor succeeds and the text of [latest_changes] is
    not empty, each of its lines starts with a bullet marker and the text
    has no whitespace at either end. *)
Theorem changes_lines_are_bullets fs text :
  ending (main fs) = Returned ->
  files (main fs) !! "latest_changes" = Some text ->
  text <> [] ->
  Forall (fun l => is_bullet l = true) (split_lf text) /\
  no_outer_space text.
Proof.
  intros (raw & line0 & rest & Hraw & Hl & Hh)%main_returned_inv Ht Hne.
  rewrite (latest_changes_written _ _ _ _ Hraw Hl Hh) in Ht.
  injection Ht as <-. split.
  - unfold Spec.changes in *. rewrite split_join_lf.
    + eapply Forall_impl; [apply bullet_lines_Forall|]. by intros b [? _].
    + by destruct (Spec.bullet_lines (line0 :: rest)).
    + apply bullet_lines_no_LF. rewrite <- Hl. apply readlines_shaped.
  - rewrite <- (changes_written line0 rest). apply strip_no_outer_space.
Qed.

Lemma changes_lines_are_bullets_witness :
  Forall (fun l => is_bullet l = true)
    (split_lf (join_lf [py "* First change"; py "* Second change"])) /\
  no_outer_space (join_lf [py "* First change"; py "* Second change"]).
Proof.
  apply (changes_lines_are_bullets (Sample.dir Sample.notes));
    vm_compute; [reflexivity | reflexivity | discriminate].
Defined.

(** C3: for an accepted first heading, with the marker removed: when the
    remainder holds the separator, the version is the text before its first
    occurrence and the title the text after it; when it does not, the
    version is the whole remainder and the title is "Version " followed by
    the version. *)
Theorem first_heading_parse fs raw line0 rest remainder :
  fs !! "Release_Notes.md" = Some raw ->
  document_lines raw = line0 :: rest ->
  strip line0 = py "# " ++ remainder ->
  (forall version title,
     remainder = version ++ py " - " ++ title ->
     (forall j, (j < length version)%nat ->
                ~ Spec.occurs_at (py " - ") remainder j) ->
     parse_header (strip line0) = (version, title) /\
     parsed_as (main fs) version title) /\
  ((forall j, ~ Spec.occurs_at (py " - ") remainder j) ->
   parse_header (strip line0) = (remainder, py "Version " ++ remainder) /\
   parsed_as (main fs) remainder (py "Version " ++ remainder)).
Proof.
  intros Hraw Hl Hs.
  assert (is_heading (strip line0) = true) as Hh.
  { rewrite Hs. apply startswith_app. }
  assert (forall v t, parse_header (strip line0) = (v, t) ->
                      parsed_as (main fs) v t) as Hp.
  { intros v t E. rewrite (main_accepted _ _ _ _ Hraw Hl Hh).
    cbv zeta. rewrite E. unfold parsed_as. cbn [files stdout fst snd].
    repeat split; by simplify_map_eq. }
  assert (drop 2 (strip line0) = remainder) as Hd by by rewrite Hs.
  split.
  - intros v t -> Hfirst.
    assert (parse_header (strip line0) = (v, t)) as E; [|by auto].
    unfold parse_header. rewrite Hd.
    destruct (split1_first _ _ _ Hfirst) as [F ->].
    unfold contains. by rewrite F.
  - intros Hno.
    assert (parse_header (strip line0) = (remainder, py "Version " ++ remainder))
      as E; [|by auto].
    unfold parse_header. rewrite Hd. unfold contains.
    destruct (find (py " - ") remainder) as [i|] eqn:F; [|done].
    apply find_Some in F as [F _]. by destruct (Hno i).
Qed.

Lemma first_heading_parse_witness :
  files (main (Sample.dir Sample.notes_plain)) !! "title"
  = Some (py "Version 2.0.0") /\
  parse_header (strip (py "# 1.1.0 - New Feature" ++ [LF]))
  = (py "1.1.0", py "New Feature").
Proof.
  split.
  - destruct (first_heading_parse (Sample.dir Sample.notes_plain)
                Sample.notes_plain (py "# 2.0.0" ++ [LF]) [] (py "2.0.0")
                eq_refl eq_refl eq_refl) as [_ H].
    destruct H as (_ & _ & _ & _ & H).
    + intros j. apply find_None. reflexivity.
    + exact H.
  - destruct (first_heading_parse (Sample.dir Sample.notes) Sample.notes
                (py "# 1.1.0 - New Feature" ++ [LF])
                (tail (document_lines Sample.notes))
                (py "1.1.0 - New Feature")
                eq_refl eq_refl eq_refl) as [H _].
    apply (H (py "1.1.0") (py "New Feature") eq_refl).
    apply (find_Some (py " - ") (py "1.1.0 - New Feature") 5 eq_refl).
Defined.

(** C4 as stated fails: an indented first line does not start with the
    heading marker, and the extractor accepts it. *)
Lemma indented_heading_counterexample :
  document_lines Sample.notes_indented = [py " # 1.0" ++ [LF]] /\
  ~ (MalformedHeaderError (main (Sample.dir Sample.notes_indented)) <->
     startswith (py "# ") (py " # 1.0" ++ [LF]) = false).
Proof.
  split; [reflexivity|]. intros [_ H].
  destruct (H eq_refl) as [_ E]. vm_compute in E. discriminate.
Qed.

(** C4, amended: for a non-empty document, the extractor fails with the
    malformed-header diagnostic, and exit status 1, exactly when the first
    line, trimmed, does not start with the heading marker. *)
Theorem malformed_header_iff fs raw :
  fs !! "Release_Notes.md" = Some raw ->
  raw <> [] ->
  exists line0 rest,
    document_lines raw = line0 :: rest /\
    (MalformedHeaderError (main fs) <->
     startswith (py "# ") (strip line0) = false) /\
    (MalformedHeaderError (main fs) -> exit_status (ending (main fs)) = 1).
Proof.
  intros Hraw Hne.
  destruct (document_lines raw) as [|line0 rest] eqn:Hl.
  { by apply document_lines_nil in Hl. }
  exists line0, rest. split; [done|]. split.
  - destruct (is_heading (strip line0)) eqn:Hh; unfold is_heading in Hh.
    + rewrite (main_accepted _ _ _ _ Hraw Hl Hh), Hh.
      split; [by intros [_ ?] | done].
    + rewrite (main_malformed _ _ _ _ Hraw Hl Hh), Hh.
      by split.
  - by intros [_ ->].
Qed.

Lemma malformed_header_iff_witness :
  exists line0 rest,
    document_lines Sample.notes_bare_marker = line0 :: rest /\
    (MalformedHeaderError (main (Sample.dir Sample.notes_bare_marker)) <->
     startswith (py "# ") (strip line0) = false) /\
    (MalformedHeaderError (main (Sample.dir Sample.notes_bare_marker)) ->
     exit_status (ending (main (Sample.dir Sample.notes_bare_marker))) = 1).
Proof.
  apply (malformed_header_iff (Sample.dir Sample.notes_bare_marker)
           Sample.notes_bare_marker); [reflexivity | discriminate].
Defined.

(** C5: on either checked failure (no line at all, or a first line that is
    not a heading) the run ends with a non-zero exit status and the
    working directory is left as it was: no output file is written. *)
Theorem checked_failures_write_nothing fs raw :
  fs !! "Release_Notes.md" = Some raw ->
  document_lines raw = [] \/
  (exists line0 rest, document_lines raw = line0 :: rest /\
                      is_heading (strip line0) = false) ->
  (EmptyInputError (main fs) \/ MalformedHeaderError (main fs)) /\
  exit_status (ending (main fs)) <> 0 /\
  files (main fs) = fs /\
  forall name,
    name ∈ ["new_version"; "old_version"; "title"; "latest_changes"] ->
    files (main fs) !! name = fs !! name.
Proof.
  intros Hraw [Hl | (line0 & rest & Hl & Hh)].
  - apply document_lines_nil in Hl as ->. rewrite (main_empty _ Hraw).
    repeat split; try done. by left.
  - rewrite (main_malformed _ _ _ _ Hraw Hl Hh).
    repeat split; try done. by right.
Qed.

Lemma checked_failures_write_nothing_witness :
  files (main (Sample.dir [])) = Sample.dir [] /\
  files (main (Sample.dir Sample.notes_bare_marker))
  = Sample.dir Sample.notes_bare_marker.
Proof.
  split.
  - apply (checked_failures_write_nothing (Sample.dir []) []);
      [reflexivity | by left].
  - apply (checked_failures_write_nothing
             (Sample.dir Sample.notes_bare_marker) Sample.notes_bare_marker);
      [reflexivity | right].
    exists (py "# " ++ [LF]), []. split; reflexivity.
Defined.

Lemma headings_accepted line0 rest :
  is_heading (strip line0) = true ->
  Spec.headings (line0 :: rest)
  = strip line0 :: List.filter is_heading (map strip rest).
Proof. intros Hh. unfold Spec.headings. simpl. by rewrite Hh. Qed.

(** C2 as stated fails: with two spaces before the separator of the second
    heading, the text before the separator ends with a space, and the
    old version written is that text trimmed. *)
Lemma spaced_separator_counterexample :
  Spec.headings (document_lines Sample.notes_spaced)
  = [py "# 2.0"; py "# 1.0  - Initial"] /\
  Spec.version_token (py "# 1.0  - Initial") = py "1.0 " /\
  files (main (Sample.dir Sample.notes_spaced)) !! "old_version"
  = Some (py "1.0") /\
  files (main (Sample.dir Sample.notes_spaced)) !! "old_version"
  <> Some (Spec.version_token (py "# 1.0  - Initial")).
Proof. repeat split; try reflexivity. vm_compute. discriminate. Qed.

(** C2, amended: for a document that passes both checks and has at least
    two headings, the old version written is the version token of the
    second heading (the text before the first separator of its remainder,
    or the whole remainder), trimmed; the variable printed is the token
    itself.  With exactly one heading the old version written is empty. *)
Theorem old_version_output fs raw line0 rest :
  fs !! "Release_Notes.md" = Some raw ->
  document_lines raw = line0 :: rest ->
  is_heading (strip line0) = true ->
  (forall h1 h2 hs,
     Spec.headings (line0 :: rest) = h1 :: h2 :: hs ->
     files (main fs) !! "old_version"
     = Some (strip (Spec.version_token h2)) /\
     stdout (main fs) !! 1%nat
     = Some (py "Old version: " ++ Spec.version_token h2)) /\
  (forall h1,
     Spec.headings (line0 :: rest) = [h1] ->
     files (main fs) !! "old_version" = Some []).
Proof.
  intros Hraw Hl Hh.
  rewrite (main_accepted _ _ _ _ Hraw Hl Hh), (headings_accepted _ _ Hh).
  cbv zeta. cbn [files stdout]. rewrite scan_spec. cbn [snd].
  unfold Spec.next_old_version.
  split.
  - intros h1 h2 hs [= _ ->]. rewrite parse_old_version_token.
    split; by simplify_map_eq.
  - intros h1 [= _ ->]. by simplify_map_eq.
Qed.

Lemma old_version_output_witness :
  files (main (Sample.dir Sample.notes)) !! "old_version"
  = Some (strip (Spec.version_token (py "# 1.0.0 - Initial Release"))) /\
  files (main (Sample.dir Sample.notes_plain)) !! "old_version" = Some [].
Proof.
  split.
  - destruct (old_version_output (Sample.dir Sample.notes) Sample.notes
                (py "# 1.1.0 - New Feature" ++ [LF])
                (tail (document_lines Sample.notes))
                eq_refl eq_refl eq_refl) as [H _].
    apply (H (py "# 1.1.0 - New Feature") (py "# 1.0.0 - Initial Release") []).
    reflexivity.
  - destruct (old_version_output (Sample.dir Sample.notes_plain)
                Sample.notes_plain (py "# 2.0.0" ++ [LF]) []
                eq_refl eq_refl eq_refl) as [_ H].
    apply (H (py "# 2.0.0")). reflexivity.
Defined.

(** C10: the empty-input diagnostic is given only for a changelog with no
    line at all; a changelog with at least one line, all of them blank or
    whitespace only, fails with the malformed-header diagnostic. Both end
    with exit status 1 and leave the working directory as it was. *)
Theorem empty_input_only_without_lines fs raw :
  fs !! "Release_Notes.md" = Some raw ->
  (EmptyInputError (main fs) <-> document_lines raw = []) /\
  (document_lines raw = [] <-> raw = []) /\
  (EmptyInputError (main fs) ->
   exit_status (ending (main fs)) = 1 /\ files (main fs) = fs) /\
  (document_lines raw <> [] ->
   Forall (fun l => strip l = []) (document_lines raw) ->
   MalformedHeaderError (main fs) /\
   ~ EmptyInputError (main fs) /\
   exit_status (ending (main fs)) = 1 /\
   files (main fs) = fs).
Proof.
  intros Hraw. split; [|split; [apply document_lines_nil|split]].
  - destruct (document_lines raw) as [|line0 rest] eqn:Hl.
    + apply document_lines_nil in Hl as ->. by rewrite (main_empty _ Hraw).
    + split; [|done]. destruct (is_heading (strip line0)) eqn:Hh.
      * rewrite (main_accepted _ _ _ _ Hraw Hl Hh). by intros [_ ?].
      * rewrite (main_malformed _ _ _ _ Hraw Hl Hh). by intros [? _].
  - intros [Hout Hend]. split; [by rewrite Hend|].
    destruct (document_lines raw) as [|line0 rest] eqn:Hl.
    + apply document_lines_nil in Hl as ->. by rewrite (main_empty _ Hraw).
    + destruct (is_heading (strip line0)) eqn:Hh.
      * by rewrite (main_accepted _ _ _ _ Hraw Hl Hh) in Hend.
      * by rewrite (main_malformed _ _ _ _ Hraw Hl Hh).
  - intros Hne Hblank.
    destruct (document_lines raw) as [|line0 rest] eqn:Hl; [done|].
    inversion Hblank as [|? ? Hb _]; subst.
    assert (is_heading (strip line0) = false) as Hh by by rewrite Hb.
    rewrite (main_malformed _ _ _ _ Hraw Hl Hh).
    repeat split; try done. by intros [? _].
Qed.

Lemma empty_input_only_without_lines_witness :
  MalformedHeaderError (main (Sample.dir Sample.notes_blank)) /\
  ~ EmptyInputError (main (Sample.dir Sample.notes_blank)) /\
  exit_status (ending (main (Sample.dir Sample.notes_blank))) = 1 /\
  files (main (Sample.dir Sample.notes_blank)) = Sample.dir Sample.notes_blank.
Proof.
  apply (empty_input_only_without_lines (Sample.dir Sample.notes_blank)
           Sample.notes_blank eq_refl).
  - discriminate.
  - repeat constructor.
Defined.

End ExtractorClaims.

(** ** Claims on the renderer and on the two stages *)

Section RendererClaims.

Variable markdown : str -> str.

Lemma renderer_main_written fs t c :
  fs !! "title" = Some t ->
  fs !! "latest_changes" = Some c ->
  Renderer.main markdown fs =
    let title := strip (universal_newlines t) in
    let changes := strip (universal_newlines c) in
    Outcome
      (<["latest_changes.html" :=
           Renderer.full_html title
             (markdown (Renderer.md_content title changes))]> fs)
      [py "Generated HTML for: " ++ title]
      Returned.
Proof.
  intros Ht Hc. unfold Renderer.main, read_text. by rewrite Ht, Hc.
Qed.

(** C7: the page written is the fixed document below, line by line: a
    head with the UTF-8 charset, a title element that holds the trimmed
    title, and the inline style block; then the body, which holds the
    fragment converted from the markdown document made of the heading line
    of the title, a blank line and the changes block. Only the title and
    the fragment vary with the inputs. *)
Theorem rendered_page fs t c :
  fs !! "title" = Some t ->
  fs !! "latest_changes" = Some c ->
  let title := strip (universal_newlines t) in
  let changes := strip (universal_newlines c) in
  let fragment := markdown (py "# " ++ title ++ [LF; LF] ++ changes) in
  files (Renderer.main markdown fs) !! "latest_changes.html"
  = Some (unlines
      [py "<!DOCTYPE html>";
       py "<html>";
       py "<head>";
       py "    <meta charset=" ++ [DQ] ++ py "utf-8" ++ [DQ] ++ py ">";
       py "    <title>" ++ title ++ py "</title>";
       py "    <style>";
       py "        body {";
       py "            font-family: -apple-system, BlinkMacSystemFont, "
         ++ [DQ] ++ py "Segoe UI" ++ [DQ]
         ++ py ", Roboto, Helvetica, Arial, sans-serif;";
       py "            padding: 20px;";
       py "            max-width: 600px;";
       py "            margin: 0 auto;";
       py "            color: #333;";
       py "        }";
       py "        h1 {";
       py "            font-size: 1.5em;";
       py "            border-bottom: 1px solid #eee;";
       py "            padding-bottom: 10px;";
       py "        }";
       py "        ul {";
       py "            padding-left: 20px;";
       py "        }";
       py "        li {";
       py "            margin: 8px 0;";
       py "        }";
       py "    </style>";
       py "</head>";
       py "<body>";
       fragment;
       py "</body>";
       py "</html>"]).
Proof.
  intros Ht Hc title changes fragment.
  rewrite (renderer_main_written _ _ _ Ht Hc).
  cbv zeta. cbn [files]. rewrite lookup_insert_eq. f_equal.
  fold title changes. change (markdown _) with fragment.
  unfold Renderer.full_html, Renderer.page_head, Renderer.page_style,
    Renderer.page_tail, Renderer.style_rules, unlines.
  cbn [map concat app]. rewrite <- !app_assoc. reflexivity.
Qed.

(** The four files of the extractor, once written, are written again
    with the same text. *)
Lemma rewrite_outputs (fs : gmap string str) v o t c :
  fs !! "new_version" = Some v ->
  fs !! "old_version" = Some o ->
  fs !! "title" = Some t ->
  fs !! "latest_changes" = Some c ->
  <["latest_changes" := c]>
    (<["title" := t]> (<["old_version" := o]> (<["new_version" := v]> fs)))
  = fs.
Proof.
  intros Hv Ho Ht Hc.
  rewrite (insert_id fs "new_version" v Hv).
  rewrite (insert_id fs "old_version" o Ho).
  rewrite (insert_id fs "title" t Ht).
  by rewrite (insert_id fs "latest_changes" c Hc).
Qed.

(** C8: running the two stages again on the directory they left produces
    the same directory: the five output files hold the same text, and the
    run ends the same way. *)
Theorem pipeline_idempotent fs :
  let r1 := pipeline markdown fs in
  let r2 := pipeline markdown (files r1) in
  files r2 = files r1 /\
  ending r2 = ending r1 /\
  forall name,
    name ∈ ["new_version"; "old_version"; "title"; "latest_changes";
            "latest_changes.html"] ->
    files r2 !! name = files r1 !! name.
Proof.
  assert (let r1 := pipeline markdown fs in
          let r2 := pipeline markdown (files r1) in
          files r2 = files r1 /\ ending r2 = ending r1) as H.
  { unfold pipeline.
    destruct (fs !! "Release_Notes.md") as [raw|] eqn:Hraw;
      [|by rewrite !(main_missing _ Hraw); cbn; rewrite !(main_missing _ Hraw)].
    destruct (document_lines raw) as [|line0 rest] eqn:Hl.
    { apply document_lines_nil in Hl as ->.
      by rewrite !(main_empty _ Hraw); cbn; rewrite !(main_empty _ Hraw). }
    destruct (Extractor.is_heading (strip line0)) eqn:Hh;
      [|by rewrite !(main_malformed _ _ _ _ Hraw Hl Hh); cbn;
           rewrite !(main_malformed _ _ _ _ Hraw Hl Hh)].
    rewrite !(main_accepted _ _ _ _ Hraw Hl Hh). cbv zeta.
    cbn [files ending stdout].
    set (v := strip (Extractor.parse_header (strip line0)).1).
    set (t := strip (Extractor.parse_header (strip line0)).2).
    set (c := strip (Extractor.scan rest [] []).1).
    set (o := strip (Extractor.scan rest [] []).2).
    set (fs1 := <["latest_changes" := c]> _).
    assert (fs1 !! "title" = Some t) as Ht by by subst fs1; simplify_map_eq.
    assert (fs1 !! "latest_changes" = Some c) as Hc
      by by subst fs1; simplify_map_eq.
    rewrite !(renderer_main_written _ _ _ Ht Hc). cbv zeta.
    cbn [files ending stdout].
    set (html := Renderer.full_html _ _).
    set (fs2 := <["latest_changes.html" := html]> fs1).
    assert (fs2 !! "Release_Notes.md" = Some raw) as Hraw2
      by by subst fs2 fs1; simplify_map_eq.
    rewrite !(main_accepted _ _ _ _ Hraw2 Hl Hh). cbv zeta.
    cbn [files ending stdout]. fold v t c o.
    assert (<["latest_changes" := c]>
              (<["title" := t]>
                 (<["old_version" := o]> (<["new_version" := v]> fs2)))
            = fs2) as ->.
    { apply rewrite_outputs; subst fs2 fs1; by simplify_map_eq. }
    assert (fs2 !! "title" = Some t) as Ht2
      by by subst fs2; simplify_map_eq.
    assert (fs2 !! "latest_changes" = Some c) as Hc2
      by by subst fs2; simplify_map_eq.
    rewrite !(renderer_main_written _ _ _ Ht2 Hc2). cbv zeta.
    cbn [files ending stdout]. fold html.
    split; [|done]. apply insert_id. subst fs2. by simplify_map_eq. }
  cbv zeta in *. destruct H as [H1 H2]. split; [done|]. split; [done|].
  intros name _. by rewrite H1.
Qed.

End RendererClaims.

Lemma rendered_page_witness :
  files (Renderer.main (MarkdownSpec.markdown id)
           (<["latest_changes" := py "* First change"]>
              {[ "title" := py "New Feature" ++ [LF] ]}))
    !! "latest_changes.html"
  = Some (unlines
      [py "<!DOCTYPE html>";
       py "<html>";
       py "<head>";
       py "    <meta charset=" ++ [DQ] ++ py "utf-8" ++ [DQ] ++ py ">";
       py "    <title>New Feature</title>";
       py "    <style>";
       py "        body {";
       py "            font-family: -apple-system, BlinkMacSystemFont, "
         ++ [DQ] ++ py "Segoe UI" ++ [DQ]
         ++ py ", Roboto, Helvetica, Arial, sans-serif;";
       py "            padding: 20px;";
       py "            max-width: 600px;";
       py "            margin: 0 auto;";
       py "            color: #333;";
       py "        }";
       py "        h1 {";
       py "            font-size: 1.5em;";
       py "            border-bottom: 1px solid #eee;";
       py "            padding-bottom: 10px;";
       py "        }";
       py "        ul {";
       py "            padding-left: 20px;";
       py "        }";
       py "        li {";
       py "            margin: 8px 0;";
       py "        }";
       py "    </style>";
       py "</head>";
       py "<body>";
       py "<h1>New Feature</h1>";
       py "<ul>";
       py "<li>First change</li>";
       py "</ul>";
       py "</body>";
       py "</html>"]).
Proof.
  refine (eq_trans
    (rendered_page (MarkdownSpec.markdown id)
       (<["latest_changes" := py "* First change"]>
          {[ "title" := py "New Feature" ++ [LF] ]})
       (py "New Feature" ++ [LF]) (py "* First change") _ _) _);
    vm_compute; reflexivity.
Defined.


(** ** From the extractor to the renderer *)

Section RoundTrip.

Import Extractor MarkdownSpec.

Lemma universal_newlines_no_CR s : CR ∉ universal_newlines s.
Proof.
  induction s as [s IH] using (induction_ltof1 _ (@length N)).
  unfold ltof in IH. destruct s as [|c s]; simpl; [apply not_elem_of_nil|].
  destruct (N.eqb_spec c CR) as [->|Hc].
  - destruct s as [|d s]; [by rewrite list_elem_of_singleton|].
    destruct (d =? LF); rewrite not_elem_of_cons;
      (split; [done | apply IH; simpl; lia]).
  - rewrite not_elem_of_cons. split; [congruence | apply IH; simpl; lia].
Qed.

Lemma universal_newlines_fixed s : CR ∉ s -> universal_newlines s = s.
Proof.
  induction s as [|c s IH]; [done|]. rewrite not_elem_of_cons.
  intros [Hc Hs]. simpl. destruct (N.eqb_spec c CR) as [->|_]; [done|].
  by rewrite IH.
Qed.

Lemma readlines_elem s l x : l ∈ readlines s -> x ∈ l -> x ∈ s.
Proof.
  revert l. induction s as [|c s IH]; intros l; simpl.
  - by intros ?%elem_of_nil.
  - destruct (c =? LF).
    + rewrite !elem_of_cons. intros [-> | Hl] Hx.
      * apply list_elem_of_singleton in Hx. by left.
      * right. by eapply IH.
    + destruct (readlines s) as [|l' ls].
      * intros ->%list_elem_of_singleton Hx.
        apply list_elem_of_singleton in Hx. rewrite elem_of_cons. by left.
      * rewrite !elem_of_cons. intros [-> | Hl] Hx.
        -- apply elem_of_cons in Hx as [-> | Hx]; [by left|].
           right. apply (IH l'); [by left | done].
        -- right. apply (IH l); [by right | done].
Qed.

Lemma title_elem fh x :
  x ∈ snd (parse_header fh) -> x ∈ fh \/ x ∈ py "Version ".
Proof.
  unfold parse_header, contains, split1.
  destruct (find (py " - ") (drop 2 fh)) as [i|]; cbn [snd].
  - intros H. left. by do 2 apply subseteq_drop in H.
  - rewrite elem_of_app. intros [H|H]; [by right|].
    left. by apply subseteq_drop in H.
Qed.

Lemma bullet_lines_elem lines b :
  b ∈ Spec.bullet_lines lines -> exists l, l ∈ lines /\ b = strip l.
Proof.
  unfold Spec.bullet_lines.
  rewrite list_elem_of_In. intros [Hb _]%List.filter_In.
  destruct lines as [|l0 lines]; [done|]. simpl in Hb.
  induction lines as [|l ls IH]; simpl in Hb; [done|].
  destruct (is_heading (strip l)); [done|].
  destruct Hb as [<- | Hb].
  - exists l. split; [|done]. apply elem_of_cons. right. by left.
  - destruct (IH Hb) as (l' & Hl' & ->). exists l'. split; [|done].
    apply elem_of_cons in Hl' as [-> | Hl']; [by left|].
    do 2 right. done.
Qed.

Lemma join_lf_elem ls x :
  x ∈ join_lf ls -> x = LF \/ exists l, l ∈ ls /\ x ∈ l.
Proof.
  induction ls as [|l ls IH]; [by intros ?%elem_of_nil|].
  destruct ls as [|l' ls].
  - intros H. right. exists l. split; [by left | done].
  - change (join_lf (l :: l' :: ls)) with (l ++ LF :: join_lf (l' :: ls)).
    rewrite elem_of_app, elem_of_cons. intros [H | [-> | H]].
    + right. exists l. split; [by left | done].
    + by left.
    + destruct (IH H) as [-> | (m & Hm & Hx)]; [by left|].
      right. exists m. split; [by right | done].
Qed.

(** The lists the grouping makes of a run of bullet lines. *)
Lemma group_bullets bs items :
  Forall (fun b => is_bullet b = true /\ no_outer_space b) bs ->
  group bs (Bullets items) = [UL (items ++ map (drop 2) bs)].
Proof.
  revert items. induction bs as [|b bs IH]; intros items H; simpl.
  - by rewrite app_nil_r.
  - inversion H as [|? ? [Hb Hn] Hbs]; subst.
    assert (blank b = false) as ->.
    { unfold blank. rewrite strip_fixed by done.
      by destruct (is_bullet_head _ Hb) as (c & r & -> & _). }
    rewrite Hb, IH by done. by rewrite <- app_assoc.
Qed.

Lemma group_changes bs :
  Forall (fun b => is_bullet b = true /\ no_outer_space b) bs ->
  Forall (fun b => LF ∉ b) bs ->
  group (split_lf (join_lf bs)) NoRun =
    match bs with [] => [] | _ => [UL (map (drop 2) bs)] end.
Proof.
  intros H Hlf. destruct bs as [|b bs]; [done|].
  rewrite split_join_lf by done.
  inversion H as [|? ? [Hb Hn] Hbs]; subst. simpl.
  assert (blank b = false) as ->.
  { unfold blank. rewrite strip_fixed by done.
    by destruct (is_bullet_head _ Hb) as (c & r & -> & _). }
  rewrite Hb. by rewrite group_bullets.
Qed.

(** The blocks of the markdown document of a title and a block of bullet
    lines. *)
Lemma blocks_md_content title bs :
  LF ∉ title ->
  Forall (fun b => is_bullet b = true /\ no_outer_space b) bs ->
  Forall (fun b => LF ∉ b) bs ->
  blocks (Renderer.md_content title (join_lf bs)) =
    H1 title :: match bs with [] => [] | _ => [UL (map (drop 2) bs)] end.
Proof.
  intros Ht H Hlf. unfold blocks, Renderer.md_content.
  change (py "# " ++ title ++ [LF; LF] ++ join_lf bs)
    with ((py "# " ++ title) ++ LF :: [] ++ LF :: join_lf bs).
  rewrite split_lf_app.
  2:{ rewrite elem_of_app. intros [E|E]; [|done].
      vm_compute in E. repeat (apply elem_of_cons in E as [E|E]; [done|]).
      by apply elem_of_nil in E. }
  rewrite split_lf_app by apply not_elem_of_nil.
  unfold is_heading. rewrite startswith_app.
  change (drop 2 (py "# " ++ title)) with title. f_equal.
  change (group ([] :: split_lf (join_lf bs)) NoRun)
    with (group (split_lf (join_lf bs)) NoRun).
  by apply group_changes.
Qed.

Lemma not_CR_in_literal : CR ∉ py "Version ".
Proof.
  intros E. vm_compute in E.
  repeat (apply elem_of_cons in E as [E|E]; [done|]).
  by apply elem_of_nil in E.
Qed.

Lemma not_LF_in_literal : LF ∉ py "Version ".
Proof.
  intros E. vm_compute in E.
  repeat (apply elem_of_cons in E as [E|E]; [done|]).
  by apply elem_of_nil in E.
Qed.

End RoundTrip.

(** ** Further properties of the extractor *)

Section ExtractorFurther.

Import Extractor.

(** X1: the extractor changes no file but its four outputs; the changelog
    and every other file of the directory are as they were, however the
    run ends. *)
Theorem extractor_frame fs name :
  name ∉ output_names ->
  files (main fs) !! name = fs !! name.
Proof.
  intros Hn. unfold output_names in Hn.
  rewrite !not_elem_of_cons in Hn. destruct Hn as (H1 & H2 & H3 & H4 & _).
  destruct (fs !! "Release_Notes.md") as [raw|] eqn:Hraw;
    [|by rewrite (main_missing _ Hraw)].
  destruct (document_lines raw) as [|line0 rest] eqn:Hl.
  { apply document_lines_nil in Hl as ->. by rewrite (main_empty _ Hraw). }
  destruct (is_heading (strip line0)) eqn:Hh;
    [|by rewrite (main_malformed _ _ _ _ Hraw Hl Hh)].
  rewrite (main_accepted _ _ _ _ Hraw Hl Hh). cbn [files].
  by rewrite !lookup_insert_ne.
Qed.

Lemma extractor_frame_witness :
  files (main (Sample.dir Sample.notes)) !! "Release_Notes.md"
  = Some Sample.notes.
Proof.
  refine (eq_trans
    (extractor_frame (Sample.dir Sample.notes) "Release_Notes.md" _) _).
  - compute_done.
  - reflexivity.
Defined.

(** X2: the extractor returns normally exactly when the changelog exists,
    has a line, and its first line, trimmed, is a heading; it then writes
    all four outputs. In every other case (also a missing changelog) the
    exit status is 1 and the directory is left as it was. *)
Theorem extractor_ending fs :
  (ending (main fs) = Returned <->
   exists raw line0 rest,
     fs !! "Release_Notes.md" = Some raw /\
     document_lines raw = line0 :: rest /\
     is_heading (strip line0) = true) /\
  (ending (main fs) = Returned ->
   forall name, name ∈ output_names -> is_Some (files (main fs) !! name)) /\
  (ending (main fs) <> Returned ->
   exit_status (ending (main fs)) = 1 /\ files (main fs) = fs).
Proof.
  split; [split; [apply main_returned_inv|]|split].
  - intros (raw & line0 & rest & Hraw & Hl & Hh).
    by rewrite (main_accepted _ _ _ _ Hraw Hl Hh).
  - intros (raw & line0 & rest & Hraw & Hl & Hh)%main_returned_inv name Hn.
    rewrite (main_accepted _ _ _ _ Hraw Hl Hh). cbn [files].
    unfold output_names in Hn.
    repeat (apply elem_of_cons in Hn as [->|Hn]);
      [..|by apply elem_of_nil in Hn]; by simplify_map_eq.
  - destruct (fs !! "Release_Notes.md") as [raw|] eqn:Hraw;
      [|by rewrite (main_missing _ Hraw)].
    destruct (document_lines raw) as [|line0 rest] eqn:Hl.
    { apply document_lines_nil in Hl as ->. by rewrite (main_empty _ Hraw). }
    destruct (is_heading (strip line0)) eqn:Hh;
      [|by rewrite (main_malformed _ _ _ _ Hraw Hl Hh)].
    by rewrite (main_accepted _ _ _ _ Hraw Hl Hh).
Qed.

Lemma extractor_ending_witness :
  exit_status (ending (main ∅)) = 1 /\ files (main ∅) = ∅.
Proof.
  apply (extractor_ending ∅). discriminate.
Defined.

Lemma before_heading_nonblank L :
  List.filter is_bullet (Spec.before_heading L)
  = List.filter is_bullet
      (Spec.before_heading
         (List.filter (fun l => match l with [] => false | _ => true end) L)).
Proof.
  induction L as [|l L IH]; [done|]. destruct l as [|c l]; [done|].
  cbn [List.filter Spec.before_heading].
  destruct (is_heading (c :: l)); [done|].
  cbn [List.filter]. by rewrite IH.
Qed.

Lemma headings_nonblank L :
  List.filter is_heading L
  = List.filter is_heading
      (List.filter (fun l => match l with [] => false | _ => true end) L).
Proof.
  induction L as [|l L IH]; [done|]. destruct l as [|c l]; [done|].
  cbn [List.filter]. by rewrite IH.
Qed.

(** The loop looks at the trimmed, non-blank lines only. *)
Lemma scan_nonblank rest1 rest2 acc old :
  trimmed_nonblank rest1 = trimmed_nonblank rest2 ->
  scan rest1 acc old = scan rest2 acc old.
Proof.
  unfold trimmed_nonblank. intros E. rewrite !scan_spec.
  unfold Spec.next_old_version.
  rewrite (before_heading_nonblank (map strip rest1)),
    (headings_nonblank (map strip rest1)), E.
  by rewrite <- before_heading_nonblank, <- headings_nonblank.
Qed.

(** X3: indentation, whitespace at the end of lines and blank lines do not
    count: two accepted changelogs with the same trimmed first line and the
    same trimmed non-blank lines after it give the same four outputs, the
    same printed lines and the same ending. *)
Theorem layout_insensitive fs1 fs2 raw1 raw2 l1 rest1 l2 rest2 :
  fs1 !! "Release_Notes.md" = Some raw1 ->
  fs2 !! "Release_Notes.md" = Some raw2 ->
  document_lines raw1 = l1 :: rest1 ->
  document_lines raw2 = l2 :: rest2 ->
  is_heading (strip l1) = true ->
  strip l1 = strip l2 ->
  trimmed_nonblank rest1 = trimmed_nonblank rest2 ->
  ending (main fs1) = ending (main fs2) /\
  stdout (main fs1) = stdout (main fs2) /\
  forall name,
    name ∈ output_names ->
    files (main fs1) !! name = files (main fs2) !! name.
Proof.
  intros Hr1 Hr2 Hl1 Hl2 Hh1 Es Er.
  assert (is_heading (strip l2) = true) as Hh2 by by rewrite <- Es.
  rewrite (main_accepted _ _ _ _ Hr1 Hl1 Hh1),
    (main_accepted _ _ _ _ Hr2 Hl2 Hh2).
  cbv zeta. cbn [files stdout ending].
  rewrite Es, (scan_nonblank _ _ [] [] Er).
  split; [done|]. split; [done|]. intros name Hn. unfold output_names in Hn.
  repeat (apply elem_of_cons in Hn as [->|Hn]);
    [..|by apply elem_of_nil in Hn]; by simplify_map_eq.
Qed.

Lemma layout_insensitive_witness :
  files (main (Sample.dir Sample.notes)) !! "latest_changes"
  = files (main (Sample.dir Variant.notes_untidy)) !! "latest_changes".
Proof.
  apply (layout_insensitive
           (Sample.dir Sample.notes) (Sample.dir Variant.notes_untidy)
           Sample.notes Variant.notes_untidy
           (py "# 1.1.0 - New Feature" ++ [LF])
           (tail (document_lines Sample.notes))
           (py "# 1.1.0 - New Feature  " ++ [LF])
           (tail (document_lines Variant.notes_untidy)));
    try (vm_compute; reflexivity).
  compute_done.
Defined.

Lemma scan_stops pre h post acc old :
  is_heading (strip h) = true ->
  scan (pre ++ h :: post) acc old = scan (pre ++ [h]) acc old.
Proof.
  intros Hh. revert acc. induction pre as [|l pre IH]; intros acc; simpl.
  - destruct (is_bullet (strip h)) eqn:B; [|by rewrite Hh].
    apply bullet_not_heading in B. congruence.
  - destruct (is_bullet (strip l)); [apply IH|].
    destruct (is_heading (strip l)); [done | apply IH].
Qed.

(** X4: what follows the second heading does not count: two accepted
    changelogs that agree up to and including a later heading line give
    the same four outputs, the same printed lines and the same ending. *)
Theorem older_entries_ignored fs1 fs2 raw1 raw2 line0 pre h post1 post2 :
  fs1 !! "Release_Notes.md" = Some raw1 ->
  fs2 !! "Release_Notes.md" = Some raw2 ->
  document_lines raw1 = line0 :: pre ++ h :: post1 ->
  document_lines raw2 = line0 :: pre ++ h :: post2 ->
  is_heading (strip line0) = true ->
  is_heading (strip h) = true ->
  ending (main fs1) = ending (main fs2) /\
  stdout (main fs1) = stdout (main fs2) /\
  forall name,
    name ∈ output_names ->
    files (main fs1) !! name = files (main fs2) !! name.
Proof.
  intros Hr1 Hr2 Hl1 Hl2 Hh0 Hh.
  rewrite (main_accepted _ _ _ _ Hr1 Hl1 Hh0),
    (main_accepted _ _ _ _ Hr2 Hl2 Hh0).
  cbv zeta. cbn [files stdout ending].
  rewrite (scan_stops pre h post1 [] [] Hh), (scan_stops pre h post2 [] [] Hh).
  split; [done|]. split; [done|]. intros name Hn. unfold output_names in Hn.
  repeat (apply elem_of_cons in Hn as [->|Hn]);
    [..|by apply elem_of_nil in Hn]; by simplify_map_eq.
Qed.

Lemma older_entries_ignored_witness :
  files (main (Sample.dir Sample.notes)) !! "old_version"
  = files (main (Sample.dir Variant.notes_cut)) !! "old_version".
Proof.
  apply (older_entries_ignored
           (Sample.dir Sample.notes) (Sample.dir Variant.notes_cut)
           Sample.notes Variant.notes_cut
           (py "# 1.1.0 - New Feature" ++ [LF])
           [py "* First change" ++ [LF]; py "* Second change" ++ [LF]; [LF]]
           (py "# 1.0.0 - Initial Release" ++ [LF])
           [py "* Initial features" ++ [LF]] []);
    try (vm_compute; reflexivity).
  compute_done.
Defined.

Lemma rstrip_app_drop a b : rstrip b = [] -> rstrip (a ++ b) = rstrip a.
Proof.
  intros Hb. induction a as [|d a IH]; simpl; [done|]. by rewrite IH.
Qed.

Lemma rstrip_length s : (length (rstrip s) <= length s)%nat.
Proof.
  destruct (rstrip_split s) as (t & E & _).
  rewrite E at 2. rewrite length_app. lia.
Qed.

Lemma rstrip_all_space s :
  Forall (fun c => isspace c = true) s -> rstrip s = [].
Proof.
  induction 1 as [|c s Hc _ IH]; [done|]. simpl. by rewrite IH, Hc.
Qed.

Lemma strip_nil_rstrip s : strip s = [] -> rstrip s = [].
Proof.
  unfold strip. intros E. destruct (lstrip_split s) as (a & Hs & Ha).
  rewrite Hs, (rstrip_app_drop _ _ E). by apply rstrip_all_space.
Qed.

(** The remainder of an accepted first heading is not empty and does not
    end with whitespace. *)
Lemma heading_remainder line :
  is_heading (strip line) = true ->
  exists remainder,
    strip line = py "# " ++ remainder /\
    drop 2 (strip line) = remainder /\
    remainder <> [] /\ rstrip remainder = remainder.
Proof.
  intros [remainder E]%startswith_spec. exists remainder.
  split; [done|]. split; [by rewrite E|].
  assert (remainder <> []) as Hne.
  { intros ->. by pose proof (strip_last line [35] 32 E). }
  split; [done|].
  destruct (exists_last Hne) as (r & c & ->).
  apply rstrip_snoc_keep. apply (strip_last line (py "# " ++ r) c).
  by rewrite E, <- app_assoc.
Qed.

Lemma parsed_as_main fs raw line0 rest :
  fs !! "Release_Notes.md" = Some raw ->
  document_lines raw = line0 :: rest ->
  is_heading (strip line0) = true ->
  parsed_as (main fs) (fst (parse_header (strip line0)))
    (snd (parse_header (strip line0))).
Proof.
  intros Hraw Hl Hh. rewrite (main_accepted _ _ _ _ Hraw Hl Hh).
  unfold parsed_as. cbv zeta. cbn [files stdout].
  repeat split; by simplify_map_eq.
Qed.

(** X5: the title written by a run that succeeds is never empty. *)
Theorem title_not_empty fs raw line0 rest :
  fs !! "Release_Notes.md" = Some raw ->
  document_lines raw = line0 :: rest ->
  is_heading (strip line0) = true ->
  exists title, files (main fs) !! "title" = Some title /\ title <> [].
Proof.
  intros Hraw Hl Hh.
  destruct (parsed_as_main _ _ _ _ Hraw Hl Hh) as (_ & _ & _ & Ft).
  eexists. split; [exact Ft|].
  destruct (heading_remainder _ Hh) as (rem & _ & Hd & Hne & Hr).
  unfold parse_header, contains, split1. rewrite Hd.
  destruct (find (py " - ") rem) as [i|] eqn:F; cbn [snd].
  - intros Ht%strip_nil_rstrip.
    apply find_Some in F as (_ & _ & E).
    assert (length (rstrip rem) <= length (take i rem) + 2)%nat as Hlen.
    { rewrite E at 1.
      change (py " - " ++ drop (i + length (py " - ")) rem)
        with ([32; 45] ++ [32] ++ drop (i + length (py " - ")) rem).
      rewrite !app_assoc, (rstrip_app_drop _ _ Ht).
      rewrite rstrip_snoc_space by reflexivity.
      etrans; [apply rstrip_length|]. rewrite length_app. simpl. lia. }
    rewrite Hr in Hlen. rewrite E in Hlen at 1.
    rewrite !length_app in Hlen. simpl in Hlen. lia.
  - unfold strip. change (lstrip (py "Version " ++ rem))
      with (py "Version " ++ rem).
    destruct (rstrip_head 86 (py "ersion " ++ rem) eq_refl) as [r E].
    change (86 :: py "ersion " ++ rem) with (py "Version " ++ rem) in E.
    by rewrite E.
Qed.

Lemma title_not_empty_witness :
  exists title,
    files (main (Sample.dir Sample.notes_plain)) !! "title" = Some title /\
    title <> [].
Proof.
  apply (title_not_empty (Sample.dir Sample.notes_plain) Sample.notes_plain
           (py "# 2.0.0" ++ [LF]) []); vm_compute; reflexivity.
Defined.

Lemma version_elem fh x : x ∈ fst (parse_header fh) -> x ∈ fh.
Proof.
  unfold parse_header, contains, split1.
  destruct (find (py " - ") (drop 2 fh)) as [i|]; cbn [fst]; intros H.
  - by apply subseteq_take, subseteq_drop in H.
  - by apply subseteq_drop in H.
Qed.

Lemma old_version_elem rest x :
  x ∈ snd (scan rest [] []) -> exists l, l ∈ rest /\ x ∈ strip l.
Proof.
  rewrite scan_spec. cbn [snd]. unfold Spec.next_old_version.
  destruct (List.filter is_heading (map strip rest)) as [|h hs] eqn:E;
    [by intros ?%elem_of_nil|].
  assert (In h (List.filter is_heading (map strip rest))) as Hin
    by (rewrite E; by left).
  apply List.filter_In in Hin as [Hin _].
  apply list_elem_of_In, list_elem_of_fmap in Hin as (l & -> & Hl).
  intros Hx. exists l. split; [done|].
  unfold parse_old_version, contains, split1 in Hx.
  destruct (find (py " - ") (drop 2 (strip l))) as [i|].
  - by apply subseteq_take, subseteq_drop in Hx.
  - by apply subseteq_drop in Hx.
Qed.

(** X6: the outputs hold no carriage return, and the two versions and the
    title hold no line feed either: each of them is a single line. *)
Theorem outputs_single_line fs raw line0 rest :
  fs !! "Release_Notes.md" = Some raw ->
  document_lines raw = line0 :: rest ->
  is_heading (strip line0) = true ->
  (forall name,
     name ∈ ["new_version"; "old_version"; "title"] ->
     exists text,
       files (main fs) !! name = Some text /\ (LF ∉ text) /\ (CR ∉ text)) /\
  (exists text,
     files (main fs) !! "latest_changes" = Some text /\ CR ∉ text).
Proof.
  intros Hraw Hl Hh.
  assert (forall l x, l ∈ line0 :: rest -> x ∈ strip l ->
                      x <> LF /\ x <> CR) as Hline.
  { intros l x Hin Hx. split; intros ->.
    - revert Hx. apply strip_line_no_LF.
      assert (Forall line_shaped (line0 :: rest)) as Hs
        by (rewrite <- Hl; apply readlines_shaped).
      by eapply Forall_forall in Hs.
    - apply strip_elem in Hx. rewrite <- Hl in Hin.
      by eapply universal_newlines_no_CR, readlines_elem. }
  split.
  - intros name Hn. rewrite (main_accepted _ _ _ _ Hraw Hl Hh).
    cbv zeta. cbn [files].
    repeat (apply elem_of_cons in Hn as [->|Hn]);
      [..|by apply elem_of_nil in Hn];
      (eexists; split; [by simplify_map_eq|]).
    + assert (forall x, x ∈ strip (parse_header (strip line0)).1 ->
                        x <> LF /\ x <> CR) as H.
      { intros x Hx%strip_elem%version_elem. apply (Hline line0); [by left|done]. }
      split; intros E; by destruct (H _ E).
    + assert (forall x, x ∈ strip (scan rest [] []).2 ->
                        x <> LF /\ x <> CR) as H.
      { intros x (l & Hin & Hx)%strip_elem%old_version_elem.
        apply (Hline l); [by right|done]. }
      split; intros E; by destruct (H _ E).
    + assert (forall x, x ∈ strip (parse_header (strip line0)).2 ->
                        x <> LF /\ x <> CR) as H.
      { intros x [Hx|Hx]%strip_elem%title_elem.
        - apply (Hline line0); [by left|done].
        - split; intros ->;
            [by apply not_LF_in_literal | by apply not_CR_in_literal]. }
      split; intros E; by destruct (H _ E).
  - eexists. split; [by apply (latest_changes_written _ _ _ _ Hraw Hl Hh)|].
    intros [E | (b & (l & Hin & ->)%bullet_lines_elem & Hx)]%join_lf_elem;
      [done|]. by destruct (Hline l CR Hin Hx).
Qed.

Lemma outputs_single_line_witness :
  exists text,
    files (main (Sample.dir Sample.notes)) !! "latest_changes" = Some text /\
    CR ∉ text.
Proof.
  apply (outputs_single_line (Sample.dir Sample.notes) Sample.notes
           (py "# 1.1.0 - New Feature" ++ [LF])
           (tail (document_lines Sample.notes)));
    vm_compute; reflexivity.
Defined.

(** No occurrence of the separator lies before the first one. *)
Lemma find_take sep s i :
  sep <> [] -> find sep s = Some i -> find sep (take i s) = None.
Proof.
  intros Hsep F. destruct (find sep (take i s)) as [j|] eqn:G; [|done].
  apply find_Some in F as (_ & Hmin & _).
  apply find_Some in G as (Hj & _ & _). unfold Spec.occurs_at in *.
  apply startswith_spec in Hj as [t Hj].
  assert (j < length (take i s))%nat as Hlt.
  { assert (length (drop j (take i s)) <> 0)%nat as Hd.
    { rewrite Hj, length_app. destruct sep; [done | simpl; lia]. }
    rewrite length_drop in Hd. lia. }
  destruct (Hmin j).
  - rewrite length_take in Hlt. lia.
  - rewrite <- (take_drop i s) at 1. rewrite drop_app_le by lia.
    rewrite Hj, <- app_assoc. apply startswith_app.
Qed.

Lemma before_sep_no_sep sep s :
  sep <> [] -> contains sep (Spec.before_sep sep s) = false.
Proof.
  intros Hsep. rewrite before_sep_find. unfold contains.
  destruct (find sep s) as [i|] eqn:F.
  - by rewrite (find_take _ _ _ Hsep F).
  - by rewrite F.
Qed.

Lemma parse_header_token fh :
  fst (parse_header fh) = Spec.before_sep (py " - ") (drop 2 fh).
Proof.
  unfold parse_header, contains, split1. rewrite before_sep_find.
  by destruct (find _ _).
Qed.

(** X7: with the remainder of the trimmed first heading (what follows its
    marker): when the remainder holds the separator, it is the version, the
    separator and the title; when it does not, the version is the
    remainder and the title is "Version " followed by the version. Neither
    the version nor the old version holds the separator. *)
Theorem heading_rebuilt fs raw line0 rest :
  fs !! "Release_Notes.md" = Some raw ->
  document_lines raw = line0 :: rest ->
  is_heading (strip line0) = true ->
  exists remainder version title old,
    strip line0 = py "# " ++ remainder /\
    parsed_as (main fs) version title /\
    stdout (main fs) !! 1%nat = Some (py "Old version: " ++ old) /\
    contains (py " - ") version = false /\
    contains (py " - ") old = false /\
    (contains (py " - ") remainder = true ->
     remainder = version ++ py " - " ++ title) /\
    (contains (py " - ") remainder = false ->
     remainder = version /\ title = py "Version " ++ version).
Proof.
  intros Hraw Hl Hh.
  destruct (heading_remainder _ Hh) as (rem & E & Hd & _).
  exists rem, (fst (parse_header (strip line0))),
    (snd (parse_header (strip line0))), (snd (scan rest [] [])).
  split; [done|].
  split; [by apply (parsed_as_main _ _ _ _ Hraw Hl Hh)|].
  split; [by rewrite (main_accepted _ _ _ _ Hraw Hl Hh)|].
  split; [rewrite parse_header_token; by apply before_sep_no_sep|].
  split.
  - rewrite scan_spec. cbn [snd]. unfold Spec.next_old_version.
    destruct (List.filter is_heading (map strip rest)); [done|].
    rewrite parse_old_version_token. by apply before_sep_no_sep.
  - unfold parse_header, split1. rewrite Hd. unfold contains.
    destruct (find (py " - ") rem) as [i|] eqn:F; cbn [fst snd].
    + split; [|done]. intros _.
      apply find_Some in F as (_ & _ & F). by rewrite <- F.
    + by split.
Qed.

Lemma heading_rebuilt_witness :
  exists remainder version title old,
    strip (py "# 1.1.0 - New Feature" ++ [LF]) = py "# " ++ remainder /\
    parsed_as (main (Sample.dir Sample.notes)) version title /\
    stdout (main (Sample.dir Sample.notes)) !! 1%nat
    = Some (py "Old version: " ++ old) /\
    contains (py " - ") version = false /\
    contains (py " - ") old = false /\
    (contains (py " - ") remainder = true ->
     remainder = version ++ py " - " ++ title) /\
    (contains (py " - ") remainder = false ->
     remainder = version /\ title = py "Version " ++ version).
Proof.
  apply (heading_rebuilt (Sample.dir Sample.notes) Sample.notes
           (py "# 1.1.0 - New Feature" ++ [LF])
           (tail (document_lines Sample.notes)));
    vm_compute; reflexivity.
Defined.

End ExtractorFurther.

(** ** Further properties of the renderer and of the two stages *)

Lemma universal_newlines_snoc_LF s :
  universal_newlines (s ++ [LF]) = universal_newlines s \/
  universal_newlines (s ++ [LF]) = universal_newlines s ++ [LF].
Proof.
  induction s as [s IH] using (induction_ltof1 _ (@length N)).
  unfold ltof in IH. destruct s as [|c s]; [by right|].
  cbn [app universal_newlines]. destruct (c =? CR).
  - destruct s as [|d s]; [by left|]. cbn [app].
    destruct (d =? LF).
    + destruct (IH s) as [-> | ->]; [simpl; lia | by left | by right].
    + destruct (IH (d :: s)) as [E | E]; [simpl; lia | |].
      * left. by rewrite <- E.
      * right. cbn [app] in E. by rewrite E.
  - destruct (IH s) as [-> | ->]; [simpl; lia | by left | by right].
Qed.

(** A line feed at the end of a file does not change what is read from it,
    once trimmed. *)
Lemma strip_read_snoc_LF s :
  strip (universal_newlines (s ++ [LF])) = strip (universal_newlines s).
Proof.
  destruct (universal_newlines_snoc_LF s) as [-> | ->]; [done|].
  by apply strip_snoc_space.
Qed.

(** What the extractor writes as title and changes block is read back
    unchanged by the renderer. *)
Lemma reread_outputs raw line0 rest :
  document_lines raw = line0 :: rest ->
  strip (universal_newlines
           (strip (snd (Extractor.parse_header (strip line0)))))
  = strip (snd (Extractor.parse_header (strip line0))) /\
  strip (universal_newlines (Spec.changes (line0 :: rest)))
  = Spec.changes (line0 :: rest).
Proof.
  intros Hl.
  assert (forall l, l ∈ line0 :: rest -> CR ∉ strip l) as Hcr.
  { intros l Hin Hx%strip_elem. rewrite <- Hl in Hin.
    by eapply universal_newlines_no_CR, readlines_elem. }
  split.
  - rewrite universal_newlines_fixed; [apply strip_idemp|].
    intros [Hx|Hx]%strip_elem%title_elem.
    + apply (Hcr line0); [by left | done].
    + by apply not_CR_in_literal.
  - rewrite universal_newlines_fixed.
    + rewrite <- (changes_written line0 rest). apply strip_idemp.
    + intros [E | (b & (l & Hin & ->)%bullet_lines_elem & Hx)]%join_lf_elem;
        [done | by apply (Hcr l)].
Qed.

Section RendererFurther.

Variable markdown : str -> str.

(** X8: the renderer returns normally exactly when the title and the
    changes file both exist; otherwise it ends with the missing-file
    exception, prints nothing and writes nothing. In every case, no file
    but the page is changed. *)
Theorem renderer_writes_one_file fs :
  (ending (Renderer.main markdown fs) = Returned <->
   is_Some (fs !! "title") /\ is_Some (fs !! "latest_changes")) /\
  (ending (Renderer.main markdown fs) <> Returned ->
   Renderer.main markdown fs = Outcome fs [] (Uncaught FileNotFoundError)) /\
  (forall name,
     name <> "latest_changes.html" ->
     files (Renderer.main markdown fs) !! name = fs !! name).
Proof.
  unfold Renderer.main, read_text.
  destruct (fs !! "title") as [t|]; cbn [fmap option_fmap option_map].
  - destruct (fs !! "latest_changes") as [c|];
      cbn [fmap option_fmap option_map ending files].
    + split; [split; [by eauto | done]|]. split; [done|].
      intros name Hn. unfold write_text. by rewrite lookup_insert_ne.
    + split; [split; [done | by intros [_ [? ?]]]|]. by split.
  - split; [split; [done | by intros [[? ?] _]]|]. by split.
Qed.

(** X9: a line feed added at the end of the title file and of the changes
    file does not change the page. *)
Theorem final_newline_ignored fs t c :
  fs !! "title" = Some t ->
  fs !! "latest_changes" = Some c ->
  files (Renderer.main markdown
           (<["latest_changes" := c ++ [LF]]> (<["title" := t ++ [LF]]> fs)))
    !! "latest_changes.html"
  = files (Renderer.main markdown fs) !! "latest_changes.html".
Proof.
  intros Ht Hc.
  rewrite (renderer_main_written markdown fs t c Ht Hc).
  rewrite (renderer_main_written markdown _ (t ++ [LF]) (c ++ [LF]));
    [|by simplify_map_eq..].
  cbv zeta. cbn [files]. rewrite !lookup_insert_eq.
  by rewrite !strip_read_snoc_LF.
Qed.

(** X10: after a run of the extractor that succeeds, the renderer always
    succeeds, and the markdown document it converts is made of the very
    texts of the title file and of the changes file: reading them back and
    trimming them again changes nothing. *)
Theorem stages_compose fs raw line0 rest :
  fs !! "Release_Notes.md" = Some raw ->
  document_lines raw = line0 :: rest ->
  Extractor.is_heading (strip line0) = true ->
  exists title changes,
    files (Extractor.main fs) !! "title" = Some title /\
    files (Extractor.main fs) !! "latest_changes" = Some changes /\
    Renderer.main markdown (files (Extractor.main fs))
    = Outcome
        (<["latest_changes.html" :=
             Renderer.full_html title
               (markdown (py "# " ++ title ++ [LF; LF] ++ changes))]>
           (files (Extractor.main fs)))
        [py "Generated HTML for: " ++ title]
        Returned.
Proof.
  intros Hraw Hl Hh.
  destruct (parsed_as_main _ _ _ _ Hraw Hl Hh) as (_ & _ & _ & Ft).
  pose proof (latest_changes_written _ _ _ _ Hraw Hl Hh) as Fc.
  destruct (reread_outputs _ _ _ Hl) as [Rt Rc].
  eexists _, _. split; [exact Ft|]. split; [exact Fc|].
  rewrite (renderer_main_written markdown _ _ _ Ft Fc). cbv zeta.
  by rewrite Rt, Rc.
Qed.

End RendererFurther.

Lemma renderer_writes_one_file_witness :
  Renderer.main (MarkdownSpec.markdown id) (Sample.dir Sample.notes)
  = Outcome (Sample.dir Sample.notes) [] (Uncaught FileNotFoundError).
Proof.
  apply (renderer_writes_one_file (MarkdownSpec.markdown id)
           (Sample.dir Sample.notes)).
  vm_compute. discriminate.
Defined.

Lemma final_newline_ignored_witness :
  files (Renderer.main (MarkdownSpec.markdown id)
           (<["latest_changes" := py "* First change" ++ [LF]]>
              (<["title" := py "New Feature" ++ [LF]]>
                 (Variant.rendered_inputs (py "New Feature")
                    (py "* First change")))))
    !! "latest_changes.html"
  = files (Renderer.main (MarkdownSpec.markdown id)
             (Variant.rendered_inputs (py "New Feature")
                (py "* First change")))
      !! "latest_changes.html".
Proof.
  apply (final_newline_ignored (MarkdownSpec.markdown id)
           (Variant.rendered_inputs (py "New Feature") (py "* First change")));
    vm_compute; reflexivity.
Defined.

Lemma stages_compose_witness :
  exists title changes,
    files (Extractor.main (Sample.dir Sample.notes)) !! "title"
    = Some title /\
    files (Extractor.main (Sample.dir Sample.notes)) !! "latest_changes"
    = Some changes /\
    Renderer.main (MarkdownSpec.markdown id)
      (files (Extractor.main (Sample.dir Sample.notes)))
    = Outcome
        (<["latest_changes.html" :=
             Renderer.full_html title
               (MarkdownSpec.markdown id
                  (py "# " ++ title ++ [LF; LF] ++ changes))]>
           (files (Extractor.main (Sample.dir Sample.notes))))
        [py "Generated HTML for: " ++ title]
        Returned.
Proof.
  apply (stages_compose (MarkdownSpec.markdown id)
           (Sample.dir Sample.notes) Sample.notes
           (py "# 1.1.0 - New Feature" ++ [LF])
           (tail (document_lines Sample.notes)));
    vm_compute; reflexivity.
Defined.

(** ** The elements of the page *)

Section Counting.

Import Html.

Lemma startswith_app_long q a b :
  (length q <= length a)%nat -> startswith q (a ++ b) = startswith q a.
Proof.
  revert a. induction q as [|x q IH]; intros a Hlen; [done|].
  destruct a as [|y a]; simpl in *; [lia|]. rewrite IH; [done | lia].
Qed.

(** A text shorter than [p] with [p] at the start of what it begins is a
    beginning of [p]. *)
Lemma startswith_short p a b :
  (length a < length p)%nat ->
  startswith p (a ++ b) = true -> startswith a p = true.
Proof.
  revert a. induction p as [|x p IH]; intros a Hlen; simpl in *; [lia|].
  destruct a as [|y a]; [done|]. simpl.
  rewrite !andb_true_iff, !N.eqb_eq. intros [-> H]. split; [done|].
  apply IH; [simpl in Hlen; lia | done].
Qed.

Lemma startswith_longer p a :
  (length a < length p)%nat -> startswith p a = false.
Proof.
  revert a. induction p as [|x p IH]; intros a Hlen; simpl in *; [lia|].
  destruct a as [|y a]; [done|]. simpl in Hlen.
  rewrite IH; [apply andb_false_r | lia].
Qed.

(** Occurrences are counted part by part when none of them lies across
    the two parts. *)
Lemma count_sub_app p a b :
  safe_end p a = true ->
  count_sub p (a ++ b) = (count_sub p a + count_sub p b)%nat.
Proof.
  induction a as [|c a IH]; [done|].
  cbn [safe_end]. rewrite andb_true_iff, orb_true_iff.
  intros [Hc Ha]. cbn [app count_sub]. rewrite (IH Ha).
  assert (startswith p (c :: a ++ b) = startswith p (c :: a)) as ->; [|lia].
  destruct Hc as [Hc | Hc].
  - apply Nat.leb_le in Hc. by apply (startswith_app_long p (c :: a) b).
  - destruct (Nat.le_gt_cases (length p) (length (c :: a))) as [Hl | Hl].
    + by apply (startswith_app_long p (c :: a) b).
    + rewrite (startswith_longer p (c :: a)) by done.
      destruct (startswith p (c :: a ++ b)) eqn:E; [|done].
      apply (startswith_short p (c :: a) b Hl) in E.
      by rewrite E in Hc.
Qed.

(** A part that does not hold the first character holds no occurrence. *)
Lemma count_sub_skip x p a b :
  x ∉ a -> count_sub (x :: p) (a ++ b) = count_sub (x :: p) b.
Proof.
  induction a as [|c a IH]; [done|]. rewrite not_elem_of_cons.
  intros [Hc Ha]. cbn [app count_sub startswith].
  destruct (N.eqb_spec x c) as [->|_]; [done|]. by rewrite IH.
Qed.

Lemma count_sub_items x p items rest :
  Forall (fun i => x ∉ i) items ->
  safe_end (x :: p) (py "<li>") = true ->
  safe_end (x :: p) (py "</li>" ++ [LF]) = true ->
  count_sub (x :: p)
    (unlines (map (fun i => py "<li>" ++ i ++ py "</li>") items) ++ rest)
  = (length items * (count_sub (x :: p) (py "<li>")
                     + count_sub (x :: p) (py "</li>" ++ [LF]))
     + count_sub (x :: p) rest)%nat.
Proof.
  intros Hi H1 H2. induction Hi as [|i items Hx _ IH]; [done|].
  cbn [map length]. rewrite unlines_cons.
  replace (((py "<li>" ++ i ++ py "</li>") ++ LF :: unlines
              (map (fun i0 => py "<li>" ++ i0 ++ py "</li>") items)) ++ rest)
    with (py "<li>" ++ i ++ (py "</li>" ++ [LF])
          ++ (unlines (map (fun i0 => py "<li>" ++ i0 ++ py "</li>") items)
              ++ rest))
    by (rewrite <- !app_assoc; reflexivity).
  rewrite (count_sub_app _ (py "<li>")) by done.
  rewrite count_sub_skip by done.
  rewrite (count_sub_app _ (py "</li>" ++ [LF])) by done.
  rewrite IH. lia.
Qed.

Lemma plain_chars t c : plain t = true -> c ∈ t -> plain_char c = true.
Proof.
  unfold plain. destruct t as [|d t]; [done|].
  rewrite andb_true_iff. intros [_ H] Hc.
  rewrite forallb_forall in H. apply H. by apply list_elem_of_In.
Qed.

Lemma plain_no_tag t : plain t = true -> 60 ∉ t.
Proof. intros H Hc. by pose proof (plain_chars _ _ H Hc). Qed.

Lemma plain_no_LF t : plain t = true -> LF ∉ t.
Proof. intros H Hc. by pose proof (plain_chars _ _ H Hc). Qed.

End Counting.

Section PageElements.

Import Extractor MarkdownSpec Html.

(** The occurrences of a tag in a page around [fragment_of]. *)
Lemma count_sub_page x p title items :
  x ∉ title ->
  Forall (fun i => x ∉ i) items ->
  safe_end (x :: p) Renderer.page_head = true ->
  safe_end (x :: p) Renderer.page_style = true ->
  safe_end (x :: p) (py "<h1>") = true ->
  safe_end (x :: p) (py "</h1>" ++ [LF] ++ py "<ul>" ++ [LF]) = true ->
  safe_end (x :: p) (py "<li>") = true ->
  safe_end (x :: p) (py "</li>" ++ [LF]) = true ->
  count_sub (x :: p) (Renderer.full_html title (fragment_of title items))
  = (count_sub (x :: p) Renderer.page_head
     + (count_sub (x :: p) Renderer.page_style
        + (count_sub (x :: p) (py "<h1>")
           + match items with
             | [] => count_sub (x :: p) (py "</h1>" ++ Renderer.page_tail)
             | _ =>
                 count_sub (x :: p) (py "</h1>" ++ [LF] ++ py "<ul>" ++ [LF])
                 + (length items
                    * (count_sub (x :: p) (py "<li>")
                       + count_sub (x :: p) (py "</li>" ++ [LF]))
                    + count_sub (x :: p) (py "</ul>" ++ Renderer.page_tail))
             end)))%nat.
Proof.
  intros Ht Hi S1 S2 S3 S4 S5 S6. unfold Renderer.full_html.
  rewrite (count_sub_app _ Renderer.page_head) by done.
  rewrite count_sub_skip by done.
  rewrite (count_sub_app _ Renderer.page_style) by done.
  do 2 f_equal. unfold fragment_of. destruct items as [|i items].
  - replace ((py "<h1>" ++ title ++ py "</h1>" ++ []) ++ Renderer.page_tail)
      with (py "<h1>" ++ title ++ (py "</h1>" ++ Renderer.page_tail))
      by (rewrite app_nil_r, <- !app_assoc; reflexivity).
    rewrite (count_sub_app _ (py "<h1>")) by done.
    by rewrite count_sub_skip.
  - set (lis := unlines (map _ (i :: items))).
    replace ((py "<h1>" ++ title ++ py "</h1>"
              ++ LF :: py "<ul>" ++ [LF] ++ lis ++ py "</ul>")
             ++ Renderer.page_tail)
      with (py "<h1>" ++ title
            ++ (py "</h1>" ++ [LF] ++ py "<ul>" ++ [LF])
            ++ (lis ++ (py "</ul>" ++ Renderer.page_tail))).
    2:{ repeat (rewrite <- ?app_assoc; cbn [app]). reflexivity. }
    rewrite (count_sub_app _ (py "<h1>")) by done.
    rewrite count_sub_skip by done.
    rewrite (count_sub_app _ (py "</h1>" ++ [LF] ++ py "<ul>" ++ [LF]))
      by done.
    subst lis. by rewrite count_sub_items.
Qed.

Section Inline.

Variable inline : str -> str.

(** Plain text holds no inline markup: it is rendered as it is. *)
Hypothesis inline_plain : forall t, plain t = true -> inline t = t.

Lemma markdown_plain title bs :
  plain title = true ->
  Forall (fun b => is_bullet b = true /\ no_outer_space b) bs ->
  Forall (fun b => LF ∉ b) bs ->
  Forall (fun b => plain (drop 2 b) = true) bs ->
  markdown inline (Renderer.md_content title (join_lf bs))
  = fragment_of title (map (drop 2) bs).
Proof.
  intros Ht Hb Hlf Hp. unfold markdown.
  rewrite blocks_md_content by (done || by apply plain_no_LF).
  assert (map (fun i => py "<li>" ++ inline i ++ py "</li>") (map (drop 2) bs)
          = map (fun i => py "<li>" ++ i ++ py "</li>") (map (drop 2) bs))
    as Hm.
  { clear Hb Hlf. induction Hp as [|b bs Hx _ IH]; [done|].
    cbn [map]. by rewrite (inline_plain _ Hx), IH. }
  unfold fragment_of. destruct bs as [|b bs].
  - cbn [map join_lf html_of_block]. rewrite (inline_plain _ Ht).
    by rewrite app_nil_r.
  - cbn [map join_lf html_of_block] in Hm |- *.
    rewrite (inline_plain _ Ht), Hm. by rewrite <- !app_assoc.
Qed.

Ltac eval_counts :=
  repeat match goal with
         | |- context [count_sub ?p ?s] =>
             let v := eval vm_compute in (count_sub p s) in
             change (count_sub p s) with v
         end.

Ltac count_tag Ht Hi :=
  match goal with
  | |- count_sub ?p _ = _ =>
      let q := eval cbv in p in change p with q
  end;
  rewrite count_sub_page by (exact Ht || exact Hi || reflexivity);
  eval_counts.


End Inline.

End PageElements.


